(* ===== verification/_CoqProject ===== *)
-Q . S2P
Prelude.v
Types.v
Api.v
Effect.v
PromiseAll.v
PortfolioHook.v
Lifecycle.v
JsString.v
Helpers.v
Skills.v
Projects.v
Sections.v
Layout.v
Page.v
