(* ===== verification/Prelude.v ===== *)
(** * A verification development of the portfolio front end

    The repository is a React single-page portfolio.  Its one piece of
    logic with ordering, partial failure and a lifecycle is the hook
    [src/frontend/src/hooks/usePortfolioData.ts]: on mount it issues
    five GET requests to the URLs of [src/frontend/src/constants/api.ts],
    waits for them with [Promise.all], stores each ok response's JSON body
    in a React state holder, and exposes the holders with [loading] and
    [error] flags.  [App.tsx] shows a spinner while [loading], a full-page
    error when [error] is set, and otherwise the header, the sections
    ([About], [Skills], [Experience], [Projects], [Hobbies]) and the
    footer, each a function of its props.

    ** Files, in dependency order

    - [Prelude] (this file): JS truthiness as a class [Truthy] with the
      [x || d] default ([js_or], notation [||?] in [js_scope]), the
      [portfolio] hint database, the tactics [invc] and [case_if], and
      shared list lemmas (boolean partitions, [NoDup] under filter).
    - [Types]: one Module per interface of [types/portfolio.ts]
      ([Profile.t], [Skill.t], ...), optional fields as [option].
    - [Api]: the endpoint table ([Endpoint], [API_ENDPOINTS]), the status
      constants, and the fetch [Response] with its [ok] flag.
    - [Effect]: a state and exception monad [Eff] with JS [catch] and
      [finally] and a [Pending] outcome (an await that never resumes);
      pointwise equivalence with [Proper] instances; [preserves],
      [catch_into], [finally_into] for invariants.
    - [PromiseAll]: [Promise.all] as a step function over settlement
      events in an environment-chosen completion order, with ECMAScript's
      remaining-count and values array; the abstract contract
      [promise_all_spec].
    - [PortfolioHook]: the hook: [HookState] (the seven [useState]
      holders), [World] (holders, request log, console log, snapshots at
      each [await]), the setters, [accept] (one [if (res.ok)] block),
      [handle_responses], [on_error], [fetchPortfolioData] (the async
      effect body), [usePortfolioData]; the network [Net] fixes each
      fetch's outcome and the completion order.  [spec_ready] is the
      contract of spec.md section 4.2; [reference_final] is a direct fold
      over the five responses, the reference the effect body is compared
      with.
    - [Lifecycle]: the spec's state machine of a cycle ([Phase],
      [phase_step]; [phase] reads a state as [App.tsx] does) and the
      contract the view layer relies on from the hook, a typeclass
      [PortfolioSource] with the hook as its instance [Hook_source].
    - [JsString]: [split], [join], [trim], [substring], [charAt],
      [toUpperCase] on strings of code units (ASCII for case and space).
    - [Helpers]: [utils/helpers.ts]; the host's date formatter and URL
      parser are Section variables.
    - [Skills], [Projects], [Sections] (Experience, Hobbies, About),
      [Layout] (Header, Footer, LoadingSpinner, App): each component as a
      function from its props record (one Module per props interface,
      [SkillsProps.t] and the like, as [App] passes them) to a record of
      what it renders; [Layout] also
      has the section ids, the element ids each view puts in the document
      ([document_ids]) and [scrollToSection] against them.
    - [Page]: the page as a whole: the React [key] of every list the page
      renders, grouped by siblings ([sibling_keys]), and the composition
      of the hook with the view.

    ** What is proved

    - The hook against the spec's contract: refinement when every fetch
      is served well formed ([hook_refines_spec]); the whole-page error on
      any transport failure ([hook_network_error], a divergence from the
      spec); the terminal flags in every case ([hook_final_state]);
      [loading] with no error in every state React can render before the
      end ([hook_loading_discipline]); independence from the completion
      order ([hook_order_independent]); the exact request log
      ([hook_requests]); holders written before a malformed body are kept
      ([hook_decode_failure_keeps_prefix]); equivalence of the effect
      body with the reference fold ([hook_equiv_reference]); the body
      always completes normally, with no escaping exception and no
      pending await ([hook_completes]); the error holder is [null] or the
      fixed message in every rendered state ([hook_error_wf]); the
      rendered phases follow the spec's state machine and end in a
      terminal phase ([hook_phases]); each data holder is written at
      most once, so every state shown is a stage of the final one
      ([hook_holders_monotone]); the console log: the message of the
      [catch] with the reason of the first fetch to reject in completion
      order, or with the [SyntaxError], or nothing ([hook_console]).
    - [Promise.all]: refinement of its contract for every completion
      order ([promise_all_correct]), fulfilment iff every element fulfils
      with values in call order ([promise_all_fulfils_iff]), rejection at
      the first rejected element without waiting for the rest
      ([promise_all_rejects_early]).
    - Helpers (unused by the components, which carry their own copies):
      the length of [truncateText], the
      initials as the upper-cased first letters of the first two
      non-empty words ([getInitials_first_letters]), the monotone
      proficiency colour with its exact thresholds; the views: skills grouping is a permutation
      with distinct non-empty blocks and unique keys, the blocks in order
      of first appearance ([Skills_category_order]), the
      featured/other partition, the technology tags round trip, the date
      line of a current position, the timeline connectors, the hobby
      icon fallback, the About links; end to end, what [App] shows over a
      page load ([app_lifecycle]), the same proved against the
      [PortfolioSource] interface alone ([app_over_source]), the
      header/footer name, and navigation safety: every menu button
      scrolls to its section, except Contact, whose target depends on a
      component that is not in the repository ([header_navigation]); the
      number of technology tags, one per comma plus one, empty pieces
      included ([technology_tags_count]).
    - The page as a whole: distinct React keys in every group of
      siblings when each collection's identities are distinct
      ([page_keys_unique]), and, composing the hook with the view, on the
      page shown after any cycle whose served collections have distinct
      identities ([hook_page_keys_unique]); the local [getSkillColor] and
      [formatDate] of the components against the helpers
      ([skill_card_colors], [formatDate_local_agrees]).

    ** Bounds and choices

    There is no fuel: every function is structural, and the effect body
    is a finite sequence of steps.  An [await] whose promise never
    settles yields [Pending]; [valid_net] (each of the five promises
    settles exactly once, in some order) rules it out, and the theorems
    that speak of the final state assume it.  Identities are [Z], the
    proficiency [Q] (no NaN).  React renders are over-approximated by the
    states at the suspension points.

    ** Plan for the next steps

    Extend in this order: the decode-failure case for every resource
    position as a claim of its own (it is a case of
    [hook_equiv_reference]); the host's [Date] and [URL] behaviour as a
    contract (a class with its laws) instead of free Section variables,
    with [formatDate] and [isValidUrl] proved against it; the view
    theorems of the sections stated against [PortfolioSource] as
    [App]'s are; the relation between [phase] and the view [App] picks.
    The map covers every line of code of [src/] but the imports;
    further work deepens the properties rather than the coverage.

    ** Not modelled

    The module imports and the [export] declarations; the DOM beyond the
    element ids, CSS and markup, the smooth-scroll
    animation of [scrollIntoView]; [Date] parsing and locale
    formatting and the [URL] parser (Section variables); the [Contact]
    section, imported by [App.tsx] from a file that is not in the
    repository (the ids it renders are a parameter of [document_ids]);
    the backend; the transport layer of [fetch] (only the outcome of
    each request, transport failure or a response with a status and a
    body, is modelled, which is why the runtime component is partly
    modelled); the shape of JSON bodies (the code casts [res.json()] to
    the declared type without checking it). *)

From stdpp Require Export base list strings decidable finite sets.
From Stdlib Require Import Ascii Bool.

(** ** JavaScript truthiness

    The source tests optional fields with [if (x)], [x && ...] and
    [x || d].  A value's truthiness is a class with one instance per
    source type that is tested this way. *)

Class Truthy (A : Type) := truthy : A -> bool.
#[export] Hint Mode Truthy ! : typeclass_instances.

#[export] Instance truthy_bool : Truthy bool := fun b => b.
#[export] Instance truthy_string : Truthy string :=
  fun s => negb (String.eqb s EmptyString).
#[export] Instance truthy_option {A} `{Truthy A} : Truthy (option A) :=
  fun o => match o with Some a => truthy a | None => false end.

(** [x || d] where [x] is an optional (possibly [undefined]) field and
    [d] the default. *)
Definition js_or {A} `{Truthy A} (x : option A) (d : A) : A :=
  match x with
  | Some a => if truthy a then a else d
  | None => d
  end.

Declare Scope js_scope.
Delimit Scope js_scope with js.
Notation "x '||?' d" := (js_or x d) (at level 50, left associativity) : js_scope.
Notation "o '?.' f" := (option_map f o) (at level 40, left associativity) : js_scope.

(** ** Automation *)

Create HintDb portfolio discriminated.

Ltac invc H := inversion H; subst; clear H.

(** Case on the first boolean [if] of the goal, keeping its equation. *)
Ltac case_if :=
  match goal with
  | |- context [if ?b then _ else _] => destruct b eqn:?
  end.

(** ** Shared list lemmas *)

Section ListFacts.
Context {A : Type}.

Lemma filter_partition_perm (f : A -> bool) (l : list A) :
  List.filter f l ++ List.filter (fun x => negb (f x)) l ≡ₚ l.
Proof.
  induction l as [|x l IH]; simpl; [done|].
  destruct (f x); simpl; [by constructor|].
  rewrite <- Permutation_middle. by constructor.
Qed.

Lemma length_filter_partition (f : A -> bool) (l : list A) :
  length (List.filter f l) + length (List.filter (fun x => negb (f x)) l)
  = length l.
Proof.
  rewrite <- length_app. apply Permutation_length, filter_partition_perm.
Qed.

Lemma filter_ext_in (f g : A -> bool) (l : list A) :
  (forall x, In x l -> f x = g x) -> List.filter f l = List.filter g l.
Proof.
  induction l as [|x l IH]; intros Hfg; simpl; [done|].
  rewrite (Hfg x (or_introl eq_refl)), IH; [done|].
  intros y Hy. apply Hfg. by right.
Qed.

Lemma filter_nil_forall (f : A -> bool) (l : list A) :
  (forall x, In x l -> f x = false) -> List.filter f l = [].
Proof.
  induction l as [|x l IH]; intros H; simpl; [done|].
  rewrite (H x (or_introl eq_refl)). apply IH. intros y Hy. apply H. by right.
Qed.

Lemma filter_id_forall (f : A -> bool) (l : list A) :
  (forall x, In x l -> f x = true) -> List.filter f l = l.
Proof.
  induction l as [|x l IH]; intros H; simpl; [done|].
  rewrite (H x (or_introl eq_refl)), IH; [done|]. intros y Hy. apply H. by right.
Qed.

Lemma filter_filter_andb (f g : A -> bool) (l : list A) :
  List.filter g (List.filter f l) = List.filter (fun x => f x && g x) l.
Proof.
  induction l as [|x l IH]; simpl; [done|].
  destruct (f x); simpl; [destruct (g x); simpl; [by rewrite IH|exact IH]|exact IH].
Qed.

Lemma NoDup_map_filter {B} (g : A -> B) (f : A -> bool) (l : list A) :
  NoDup (map g l) -> NoDup (map g (List.filter f l)).
Proof.
  induction l as [|x l IH]; simpl; intros Hnd; [constructor|].
  invc Hnd. destruct (f x); simpl; [|by apply IH].
  constructor; [|by apply IH].
  intros Hin. apply list_elem_of_In, in_map_iff in Hin as (y & Hy & Hin).
  apply filter_In in Hin as [Hin _].
  match goal with H : g x ∉ _ |- _ => apply H end.
  apply list_elem_of_In. rewrite <- Hy. by apply in_map.
Qed.
(** A map that is injective on the elements keeps a list duplicate free. *)
Lemma NoDup_map_inj {B} (f : A -> B) (l : list A) :
  (forall x y, f x = f y -> x = y) -> NoDup l -> NoDup (map f l).
Proof.
  intros Hinj. induction 1 as [|x l Hx Hnd IH]; simpl; constructor; [|done].
  intros Hin. apply list_elem_of_In, in_map_iff in Hin as (y & Hy & Hin).
  apply Hinj in Hy as ->. by apply Hx, list_elem_of_In.
Qed.

(** An indexed map that ignores the index is a map. *)
Lemma imap_ignore {B} (g : A -> B) (l : list A) : imap (fun _ x => g x) l = map g l.
Proof. induction l as [|x l IH]; simpl; [done|]. f_equal. exact IH. Qed.

(** Concatenating the zero-or-one-element lists of a partial function is
    its [omap]. *)
Lemma concat_option_list {B} (f : A -> option B) (l : list A) :
  List.concat (map (fun x => option_list (f x)) l) = omap f l.
Proof. induction l as [|x l IH]; simpl; [done|]. rewrite IH. by destruct (f x). Qed.

End ListFacts.

#[export] Hint Resolve filter_partition_perm NoDup_map_filter : portfolio.
