(* ===== verification/Types.v ===== *)
(** * Data model: [src/frontend/src/types/portfolio.ts]

    One Module per TypeScript interface, so that the fields keep their
    source names ([Profile.fullName], [Skill.category], ...).  A TS
    optional field [x?: T] is an [option T] ([None] = [undefined]); a TS
    [number] is [Z] for identities and [Q] for the proficiency, which the
    code compares against thresholds (NaN and infinities are not
    modelled).  Strings are [string] (see [JsString.v] for the
    correspondence with UTF-16 code units). *)

From S2P Require Import Prelude.
From Stdlib Require Import ZArith QArith.

#[export] Instance Q_eq_dec : EqDecision Q.
Proof. solve_decision. Defined.

Module Profile.
Record t := mk {
  id : Z;
  fullName : string;
  title : string;
  bio : string;
  profileImageUrl : option string;
  email : option string;
  phone : option string;
  location : option string;
  linkedinUrl : option string;
  githubUrl : option string;
  websiteUrl : option string
}.
#[export] Instance eq_dec : EqDecision t.
Proof. solve_decision. Defined.
End Profile.

Module Skill.
Record t := mk {
  id : Z;
  name : string;
  category : string;
  iconUrl : option string;
  proficiency : Q;
  description : option string
}.
#[export] Instance eq_dec : EqDecision t.
Proof. solve_decision. Defined.
End Skill.

Module Project.
Record t := mk {
  id : Z;
  name : string;
  description : string;
  imageUrl : option string;
  githubUrl : option string;
  liveUrl : option string;
  technologies : option string;
  createdAt : option string;
  featured : option bool
}.
#[export] Instance eq_dec : EqDecision t.
Proof. solve_decision. Defined.
End Project.

Module Hobby.
Record t := mk {
  id : Z;
  name : string;
  description : string;
  imageUrl : option string;
  iconUrl : option string
}.
#[export] Instance eq_dec : EqDecision t.
Proof. solve_decision. Defined.
End Hobby.

Module Experience.
Record t := mk {
  id : Z;
  title : string;
  company : string;
  location : option string;
  startDate : option string;
  endDate : option string;
  current : option bool;
  description : option string;
  companyLogoUrl : option string
}.
#[export] Instance eq_dec : EqDecision t.
Proof. solve_decision. Defined.
End Experience.

Module ContactMessage.
Record t := mk {
  name : string;
  email : string;
  subject : option string;
  message : string
}.
End ContactMessage.

Module ApiResponse.
Record t (T : Type) := mk {
  data : T;
  success : bool;
  message : option string
}.
End ApiResponse.

Module PortfolioData.
Record t := mk {
  profile : option Profile.t;
  skills : list Skill.t;
  projects : list Project.t;
  hobbies : list Hobby.t;
  experiences : list Experience.t
}.
End PortfolioData.

(** React keys: every list is rendered with [key={x.id}]; the data model's
    invariant (spec, section 3) is that identities are unique within a
    collection. *)
Definition ids_unique {A} (id : A -> Z) (l : list A) : Prop := NoDup (map id l).
