(* ===== verification/Api.v ===== *)
(** * Resource client: [src/frontend/src/constants/api.ts] and the
    [fetch] responses the hook consumes.

    [API_ENDPOINTS] is a map from the seven endpoint keys of the source
    to URLs rooted at [API_BASE_URL]; [HTTP_STATUS] the status constants.
    A [fetch] either rejects (transport failure: [NetworkError]) or
    completes with a [Response] whose [ok] flag is the Fetch standard's
    [200 <= status <= 299] and whose [json()] either yields the decoded
    body or rejects ([body = None]: malformed JSON).  The file holds
    definitions only: what the hook does with them is proved in
    [PortfolioHook.v] ([hook_requests] for the URLs, [hook_final_state]
    for the [ok] test). *)

From S2P Require Import Prelude.
From Stdlib Require Import ZArith.

Inductive Endpoint :=
| PROFILE | SKILLS | PROJECTS | PROJECTS_FEATURED | HOBBIES | EXPERIENCES | CONTACTS.

#[export] Instance Endpoint_eq_dec : EqDecision Endpoint.
Proof. solve_decision. Defined.

Definition API_BASE_URL : string := "http://localhost:8080/api".

(** The path suffix of each key, as in the template literals. *)
Definition endpoint_path (e : Endpoint) : string :=
  match e with
  | PROFILE => "/profile"
  | SKILLS => "/skills"
  | PROJECTS => "/projects"
  | PROJECTS_FEATURED => "/projects/featured"
  | HOBBIES => "/hobbies"
  | EXPERIENCES => "/experiences"
  | CONTACTS => "/contacts"
  end.

Definition API_ENDPOINTS (e : Endpoint) : string :=
  String.append API_BASE_URL (endpoint_path e).

Inductive HttpStatusName := OK | CREATED | BAD_REQUEST | NOT_FOUND | INTERNAL_SERVER_ERROR.

Definition HTTP_STATUS (n : HttpStatusName) : Z :=
  match n with
  | OK => 200
  | CREATED => 201
  | BAD_REQUEST => 400
  | NOT_FOUND => 404
  | INTERNAL_SERVER_ERROR => 500
  end.

(** ** Responses of [fetch] *)

Record Response (A : Type) := mkResponse {
  status : Z;
  body : option A
}.
Arguments mkResponse {A} _ _.
Arguments status {A} _.
Arguments body {A} _.

Definition ok {A} (r : Response A) : bool := (200 <=? status r)%Z && (status r <=? 299)%Z.

Inductive FetchResult (A : Type) :=
| NetworkError (reason : string)
| Completed (r : Response A).
Arguments NetworkError {A} _.
Arguments Completed {A} _.
