(* ===== verification/Effect.v ===== *)
(** * Effects of an async JavaScript function body

    A small state and exception monad [Eff S E A := S -> Exc E A * S]:
    the state [S] is everything the body writes (React state holders,
    request and console logs, render snapshots), [E] the values it may
    throw.  [catch] and [finally] follow ECMAScript's [try]/[catch]/
    [finally]: the handler sees the state the failing block left behind
    (writes before a throw are not undone), and [finally] runs on both
    paths; when it completes normally the outcome of the protected block
    is kept.  [Pending] is the outcome of a body suspended forever at an
    [await] of a promise that never settles: nothing after it runs, not
    even [catch] or [finally].  Two computations are equivalent ([≡]) when they agree on
    every start state; [bind], [catch] and [finally] respect it. *)

From S2P Require Import Prelude.

Inductive Exc (E A : Type) := Ok (a : A) | Throw (e : E) | Pending.
Arguments Ok {E A} _.
Arguments Throw {E A} _.
Arguments Pending {E A}.

Definition Eff (S E A : Type) : Type := S -> Exc E A * S.

Section Monad.
Context {S E : Type}.

Definition ret {A} (a : A) : Eff S E A := fun s => (Ok a, s).

Definition bind {A B} (m : Eff S E A) (k : A -> Eff S E B) : Eff S E B :=
  fun s => match m s with
           | (Ok a, s') => k a s'
           | (Throw e, s') => (Throw e, s')
           | (Pending, s') => (Pending, s')
           end.

Definition throw {A} (e : E) : Eff S E A := fun s => (Throw e, s).

Definition modify (f : S -> S) : Eff S E unit := fun s => (Ok tt, f s).

(** [await] of an already settled promise: its value or its rejection. *)
Definition of_exc {A} (r : Exc E A) : Eff S E A :=
  match r with Ok a => ret a | Throw e => throw e | Pending => fun s => (Pending, s) end.

Definition catch {A} (m : Eff S E A) (h : E -> Eff S E A) : Eff S E A :=
  fun s => match m s with
           | (Throw e, s') => h e s'
           | r => r
           end.

Definition finally {A} (m : Eff S E A) (f : Eff S E unit) : Eff S E A :=
  fun s => match m s with
           | (Pending, s1) => (Pending, s1)
           | (r, s1) =>
               match f s1 with
               | (Ok _, s2) => (r, s2)
               | (Throw e, s2) => (Throw e, s2)
               | (Pending, s2) => (Pending, s2)
               end
           end.

(** Pointwise equivalence of computations. *)
Definition eff_equiv {A} (m1 m2 : Eff S E A) : Prop := forall s, m1 s = m2 s.

#[export] Instance eff_equiv_equiv {A} : Equivalence (@eff_equiv A).
Proof. split; repeat intro; congruence. Qed.
End Monad.

Declare Scope effect_scope.
Delimit Scope effect_scope with eff.
Notation "x <- m ;; k" := (bind m (fun x => k))
  (at level 100, m at next level, right associativity) : effect_scope.
Notation "m ;; k" := (bind m (fun _ : unit => k))
  (at level 100, right associativity) : effect_scope.
Infix "≡ₑ" := eff_equiv (at level 70) : effect_scope.
Open Scope effect_scope.

Section Laws.
Context {S E : Type}.

Lemma bind_ret_l {A B} (a : A) (k : A -> Eff S E B) : bind (ret a) k ≡ₑ k a.
Proof. intros s. reflexivity. Qed.

Lemma bind_ret_r {A} (m : Eff S E A) : bind m ret ≡ₑ m.
Proof. intros s. unfold bind. by destruct (m s) as [[a|e|] s']. Qed.

Lemma bind_assoc {A B C} (m : Eff S E A) (f : A -> Eff S E B) (g : B -> Eff S E C) :
  bind (bind m f) g ≡ₑ bind m (fun a => bind (f a) g).
Proof. intros s. unfold bind. by destruct (m s) as [[a|e|] s']. Qed.

#[export] Instance bind_proper {A B} :
  Proper (eff_equiv ==> pointwise_relation A eff_equiv ==> eff_equiv) (@bind S E A B).
Proof.
  intros m1 m2 Hm k1 k2 Hk s. unfold bind. rewrite Hm.
  destruct (m2 s) as [[a|e|] s']; [apply Hk|done|done].
Qed.

#[export] Instance catch_proper {A} :
  Proper (eff_equiv ==> pointwise_relation E eff_equiv ==> eff_equiv) (@catch S E A).
Proof.
  intros m1 m2 Hm h1 h2 Hh s. unfold catch. rewrite Hm.
  destruct (m2 s) as [[a|e|] s']; [done|apply Hh|done].
Qed.

#[export] Instance finally_proper {A} :
  Proper (eff_equiv ==> eff_equiv ==> eff_equiv) (@finally S E A).
Proof.
  intros m1 m2 Hm f1 f2 Hf s. unfold finally. rewrite Hm.
  destruct (m2 s) as [[a|e|] s1]; by rewrite ?Hf.
Qed.

(** Running a sequence: the equations [simpl] does not expose. *)
Lemma run_bind_ok {A B} (m : Eff S E A) (k : A -> Eff S E B) s a s' :
  m s = (Ok a, s') -> bind m k s = k a s'.
Proof. unfold bind. by intros ->. Qed.

Lemma run_bind_throw {A B} (m : Eff S E A) (k : A -> Eff S E B) s e s' :
  m s = (Throw e, s') -> bind m k s = (Throw e, s').
Proof. unfold bind. by intros ->. Qed.

Lemma run_catch_ok {A} (m : Eff S E A) h s a s' :
  m s = (Ok a, s') -> catch m h s = (Ok a, s').
Proof. unfold catch. by intros ->. Qed.

Lemma run_catch_throw {A} (m : Eff S E A) h s e s' :
  m s = (Throw e, s') -> catch m h s = h e s'.
Proof. unfold catch. by intros ->. Qed.

Lemma run_finally_ok {A} (m : Eff S E A) f s r s1 s2 :
  m s = (r, s1) -> r <> Pending -> f s1 = (Ok tt, s2) -> finally m f s = (r, s2).
Proof. unfold finally. intros -> Hr ->. by destruct r. Qed.

Lemma run_finally_pending {A} (m : Eff S E A) f s s1 :
  m s = (Pending, s1) -> finally m f s = (Pending, s1).
Proof. unfold finally. by intros ->. Qed.

(** A state predicate [P] that holds after every step of [m]. *)
Definition preserves {A} (P : S -> Prop) (m : Eff S E A) : Prop :=
  forall s, P s -> P (snd (m s)).

Lemma preserves_bind {A B} P (m : Eff S E A) (k : A -> Eff S E B) :
  preserves P m -> (forall a, preserves P (k a)) -> preserves P (bind m k).
Proof.
  intros Hm Hk s Hs. unfold bind. specialize (Hm s Hs).
  destruct (m s) as [[a|e|] s']; simpl in *; [by apply Hk|done|done].
Qed.

Lemma preserves_ret {A} P (a : A) : preserves P (ret a).
Proof. by intros s. Qed.

Lemma preserves_throw {A} P e : preserves P (@throw S E A e).
Proof. by intros s. Qed.

Lemma preserves_of_exc {A} P (r : Exc E A) : preserves P (of_exc r).
Proof. destruct r; by intros s. Qed.

Lemma preserves_modify P (f : S -> S) :
  (forall s, P s -> P (f s)) -> preserves P (@modify S E f).
Proof. intros Hf s. apply Hf. Qed.

Lemma preserves_catch {A} P (m : Eff S E A) h :
  preserves P m -> (forall e, preserves P (h e)) -> preserves P (catch m h).
Proof.
  intros Hm Hh s Hs. unfold catch. specialize (Hm s Hs).
  destruct (m s) as [[a|e|] s']; simpl in *; [done|by apply Hh|done].
Qed.

(** [catch] moving from an invariant [P] of the protected block to a
    weaker [Q] kept by the handler; [finally] keeping [Q]. *)
Lemma catch_into {A} (P Q : S -> Prop) (m : Eff S E A) h :
  preserves P m -> (forall s, P s -> Q s) -> (forall e, preserves Q (h e)) ->
  forall s, P s -> Q (snd (catch m h s)).
Proof.
  intros Hm HPQ Hh s Hs. unfold catch. specialize (Hm s Hs).
  destruct (m s) as [[a|e|] s']; simpl in *; [by apply HPQ|by apply Hh, HPQ|by apply HPQ].
Qed.

Lemma finally_into {A} (P Q : S -> Prop) (m : Eff S E A) f :
  (forall s, P s -> Q (snd (m s))) -> preserves Q f ->
  forall s, P s -> Q (snd (finally m f s)).
Proof.
  intros Hm Hf s Hs. unfold finally. specialize (Hm s Hs).
  destruct (m s) as [r s1]; simpl in *. specialize (Hf s1 Hm).
  destruct r; [| |done]; destruct (f s1) as [[]]; done.
Qed.

Lemma preserves_finally {A} P (m : Eff S E A) f :
  preserves P m -> preserves P f -> preserves P (finally m f).
Proof. intros Hm Hf s Hs. by apply (finally_into P P). Qed.
End Laws.

#[export] Hint Resolve preserves_bind preserves_ret preserves_throw preserves_of_exc
  preserves_modify preserves_catch preserves_finally : portfolio.
