(* ===== verification/PromiseAll.v ===== *)
(** * [Promise.all] over promises that settle in an arbitrary order

    The hook awaits [Promise.all([...five fetches...])].  ECMAScript's
    PerformPromiseAll keeps a count of elements still to resolve and an
    array of values indexed by position; each element's settlement runs a
    callback: a fulfilment stores its value at its own index and
    decrements the count, resolving the combined promise with the array
    when the count reaches zero; a rejection rejects the combined promise
    at once.  The combined promise settles only once: later callbacks
    have no visible effect.

    The environment chooses the completion order: [order] is a
    permutation of the indices, and [schedule ss order] the sequence of
    settlement events.  [promise_all_spec] is the abstract contract (the
    values in index order when every promise fulfils, otherwise the
    reason of the first rejection to occur); [promise_all_correct] proves
    that the step machine implements it for every completion order. *)

From S2P Require Import Prelude Effect.

Section PromiseAll.
Context {V : Type}.

Inductive Settlement := Fulfilled (v : V) | Rejected (reason : string).

#[export] Instance Settlement_inhabited : Inhabited Settlement :=
  populate (Rejected EmptyString).

Record AllState := mkAllState {
  remaining : nat;
  values : list (option V);
  result : option (Exc string (list V))
}.

Definition all_init (n : nat) : AllState :=
  mkAllState n (replicate n None) (if n is 0 then Some (Ok []) else None).

(** One element's settlement callback. *)
Definition all_step (st : AllState) (ev : nat * Settlement) : AllState :=
  match result st with
  | Some _ => st
  | None =>
      match ev.2 with
      | Rejected r => mkAllState (remaining st) (values st) (Some (Throw r))
      | Fulfilled v =>
          let vals := <[ev.1 := Some v]> (values st) in
          let rem := pred (remaining st) in
          mkAllState rem vals (if rem is 0 then Some (Ok (omap id vals)) else None)
      end
  end.

Definition schedule (ss : list Settlement) (order : list nat) : list (nat * Settlement) :=
  map (fun i => (i, ss !!! i)) order.

Definition promise_all (ss : list Settlement) (order : list nat) : AllState :=
  fold_left all_step (schedule ss order) (all_init (length ss)).

(** ** The abstract contract *)

Fixpoint first_rejection (evs : list (nat * Settlement)) : option string :=
  match evs with
  | [] => None
  | (_, Rejected r) :: _ => Some r
  | _ :: evs' => first_rejection evs'
  end.

Definition fulfilled_value (s : Settlement) : option V :=
  match s with Fulfilled v => Some v | Rejected _ => None end.

Definition promise_all_spec (ss : list Settlement) (order : list nat) : Exc string (list V) :=
  match first_rejection (schedule ss order) with
  | Some r => Throw r
  | None => Ok (omap fulfilled_value ss)
  end.

(** ** The step machine *)

(** The values array after the fulfilments among [evs]. *)
Definition fill (evs : list (nat * Settlement)) (vals : list (option V)) : list (option V) :=
  fold_left (fun vals ev => match ev.2 with
                            | Fulfilled v => <[ev.1 := Some v]> vals
                            | Rejected _ => vals
                            end) evs vals.

Lemma fold_all_step_settled evs st r :
  result st = Some r -> fold_left all_step evs st = st.
Proof.
  intros Hr. induction evs as [|ev evs IH]; simpl; [done|].
  unfold all_step at 2. by rewrite Hr.
Qed.

Lemma run_all_steps evs st :
  result st = None -> 0 < remaining st -> length evs <= remaining st ->
  result (fold_left all_step evs st) =
    match first_rejection evs with
    | Some r => Some (Throw r)
    | None => if decide (length evs = remaining st)
              then Some (Ok (omap id (fill evs (values st)))) else None
    end.
Proof.
  revert st. induction evs as [|[i [v|r]] evs IH]; intros st Hnone Hpos Hlen; simpl.
  - rewrite Hnone. case_decide; [lia|done].
  - unfold all_step at 2. rewrite Hnone. simpl.
    destruct (remaining st) as [|[|rem]] eqn:Hrem; simpl in *; [lia| |].
    + destruct evs; simpl in *; [|lia].
      done.
    + rewrite IH; simpl; [|done|lia|lia].
      destruct (first_rejection evs); [done|].
      repeat case_decide; unfold fill; simpl; try done; lia.
  - unfold all_step at 2. rewrite Hnone. simpl.
    by erewrite fold_all_step_settled.
Qed.

Lemma first_rejection_None evs :
  first_rejection evs = None <-> Forall (fun ev => is_Some (fulfilled_value ev.2)) evs.
Proof.
  induction evs as [|[i [v|r]] evs IH]; simpl.
  - split; [constructor|done].
  - rewrite Forall_cons, IH. naive_solver.
  - rewrite Forall_cons. split; [done|]. intros [[? [=]] _].
Qed.

Lemma lookup_fill_fulfilled (vs : list V) order vals j :
  length vals = length vs -> Forall (fun i => i < length vs) order ->
  fill (schedule (Fulfilled <$> vs) order) vals !! j =
    if decide (j ∈ order) then Some <$> vs !! j else vals !! j.
Proof.
  revert vals. induction order as [|i order IH]; intros vals Hlen Hord; simpl.
  - repeat case_decide; set_solver.
  - apply Forall_cons in Hord as [Hi Hord].
    destruct (lookup_lt_is_Some_2 vs i Hi) as [w Hw].
    assert (Hs : (Fulfilled <$> vs) !!! i = Fulfilled w).
    { apply list_lookup_total_correct. by rewrite list_lookup_fmap, Hw. }
    rewrite Hs. simpl.
    rewrite IH; [|by rewrite length_insert|done].
    destruct (decide (j = i)) as [->|Hji].
    + rewrite list_lookup_insert_eq by lia.
      destruct (decide (i ∈ order)), (decide (i ∈ i :: order)); rewrite ?Hw; set_solver.
    + rewrite list_lookup_insert_ne by done. repeat case_decide; set_solver.
Qed.

Lemma fill_all_fulfilled (vs : list V) order :
  order ≡ₚ seq 0 (length vs) ->
  fill (schedule (Fulfilled <$> vs) order) (replicate (length vs) None) = Some <$> vs.
Proof.
  intros Hperm. apply list_eq. intros j.
  rewrite lookup_fill_fulfilled; [| by rewrite length_replicate |].
  - rewrite list_lookup_fmap. case_decide as Hj; [done|].
    rewrite Hperm, elem_of_seq in Hj.
    rewrite (proj1 (lookup_replicate_None _ _ _)), lookup_ge_None_2; [done|lia|lia].
  - apply Forall_forall. intros i Hi. rewrite Hperm, elem_of_seq in Hi. lia.
Qed.

Lemma omap_id_fmap_Some (vs : list V) : omap id (Some <$> vs) = vs.
Proof. induction vs; simpl; by f_equal. Qed.

Lemma omap_fulfilled_fmap (vs : list V) : omap fulfilled_value (Fulfilled <$> vs) = vs.
Proof. induction vs; simpl; by f_equal. Qed.

(** Under the permutation hypothesis, no rejection among the events
    means every promise fulfilled. *)
Lemma no_rejection_all_fulfilled (ss : list Settlement) order :
  order ≡ₚ seq 0 (length ss) -> first_rejection (schedule ss order) = None ->
  ss = Fulfilled <$> omap fulfilled_value ss.
Proof.
  intros Hperm Hnone. apply first_rejection_None in Hnone. rewrite Forall_forall in Hnone.
  assert (Hall : forall s, s ∈ ss -> is_Some (fulfilled_value s)).
  { intros s Hs. apply list_elem_of_lookup in Hs as [j Hj].
    pose proof (lookup_lt_Some _ _ _ Hj) as Hlt.
    apply (Hnone (j, s)). unfold schedule. apply list_elem_of_In, in_map_iff.
    exists j. split; [by rewrite (list_lookup_total_correct _ _ _ Hj)|].
    apply list_elem_of_In. rewrite Hperm, elem_of_seq. lia. }
  clear Hnone Hperm. induction ss as [|[v|r] ss IH]; simpl; [done| |].
  - f_equal. apply IH. intros s Hs. apply Hall. set_solver.
  - destruct (Hall (Rejected r)) as [? [=]]. set_solver.
Qed.

Lemma first_rejection_app evs1 evs2 :
  first_rejection (evs1 ++ evs2) =
    match first_rejection evs1 with Some r => Some r | None => first_rejection evs2 end.
Proof. induction evs1 as [|[i [v|r]] evs1 IH]; simpl; auto. Qed.

Lemma length_schedule ss order : length (schedule ss order) = length order.
Proof. apply length_map. Qed.

(** ** Properties of [Promise.all] *)

(** The combined promise settles as [promise_all_spec] says. *)
Lemma promise_all_result (ss : list Settlement) (order : list nat) :
  order ≡ₚ seq 0 (length ss) -> ss <> [] ->
  result (promise_all ss order) = Some (promise_all_spec ss order).
Proof.
  intros Hperm Hne.
  assert (Hn : length order = length ss) by (by rewrite Hperm, length_seq).
  assert (0 < length ss) by (destruct ss; simpl; [done|lia]).
  unfold promise_all, promise_all_spec.
  rewrite run_all_steps; simpl; rewrite ?length_schedule;
    [|destruct (length ss); [lia|done]|lia|lia].
  destruct (first_rejection (schedule ss order)) eqn:Hrej; [done|].
  rewrite decide_True by lia.
  pose proof (no_rejection_all_fulfilled ss order Hperm Hrej) as Hss.
  remember (omap fulfilled_value ss) as vs eqn:Hvs. clear Hvs.
  subst ss. rewrite length_fmap in *.
  rewrite fill_all_fulfilled by done.
  by rewrite omap_id_fmap_Some.
Qed.

(** C3. For every completion order of the promises, the combined
    promise settles as the abstract contract says: with the values in
    index (call) order when all fulfil, otherwise with the reason of the
    first rejection to occur. *)
Theorem promise_all_correct (ss : list Settlement) (order : list nat) :
  order ≡ₚ seq 0 (length ss) -> ss <> [] ->
  result (promise_all ss order) = Some (promise_all_spec ss order).
Proof. intros. by apply promise_all_result. Qed.

(** When the combined promise fulfils, and with what. *)
Lemma promise_all_fulfils (ss : list Settlement) (order : list nat) (vs : list V) :
  order ≡ₚ seq 0 (length ss) -> ss <> [] ->
  result (promise_all ss order) = Some (Ok vs) <-> ss = Fulfilled <$> vs.
Proof.
  intros Hperm Hne. rewrite promise_all_result by done.
  unfold promise_all_spec. split.
  - destruct (first_rejection _) eqn:Hrej; [done|]. intros [= <-].
    by apply no_rejection_all_fulfilled in Hrej.
  - intros ->. rewrite omap_fulfilled_fmap.
    assert (Hnone : first_rejection (schedule (Fulfilled <$> vs) order) = None).
    { apply first_rejection_None, Forall_forall. intros [i s] Hin.
      unfold schedule in Hin. apply list_elem_of_In, in_map_iff in Hin as (j & [= <- <-] & Hj).
      apply list_elem_of_In in Hj. rewrite Hperm, elem_of_seq, length_fmap in Hj.
      destruct (lookup_lt_is_Some_2 vs j) as [w Hw]; [lia|].
      rewrite (list_lookup_total_correct _ j (Fulfilled w)); [by eexists|].
      by rewrite list_lookup_fmap, Hw. }
    by rewrite Hnone.
Qed.

(** C4. Whatever the completion order, the combined promise fulfils
    with [vs] exactly when every promise fulfils, with [vs] listed in the
    order of the calls. *)
Corollary promise_all_fulfils_iff (ss : list Settlement) (order : list nat) (vs : list V) :
  order ≡ₚ seq 0 (length ss) -> ss <> [] ->
  result (promise_all ss order) = Some (Ok vs) <-> ss = Fulfilled <$> vs.
Proof. intros. by apply promise_all_fulfils. Qed.

(** C5. [Promise.all] does not wait for the whole settled set: once the
    first rejection occurs (after the fulfilments in [pre]), the combined
    promise is already rejected with its reason, whatever the promises
    of [post] later do. *)
Theorem promise_all_rejects_early (ss : list Settlement) pre i post r :
  pre ++ i :: post ≡ₚ seq 0 (length ss) ->
  ss !! i = Some (Rejected r) ->
  first_rejection (schedule ss pre) = None ->
  result (fold_left all_step (schedule ss (pre ++ [i])) (all_init (length ss)))
    = Some (Throw r).
Proof.
  intros Hperm Hi Hpre.
  assert (Hn : length (pre ++ i :: post) = length ss) by (by rewrite Hperm, length_seq).
  rewrite length_app in Hn. simpl in Hn.
  rewrite run_all_steps; simpl; rewrite ?length_schedule, ?length_app; simpl;
    [|destruct (length ss); [lia|done]|lia|lia].
  unfold schedule. rewrite map_app, first_rejection_app. fold (schedule ss pre).
  rewrite Hpre. simpl. by rewrite (list_lookup_total_correct _ _ _ Hi).
Qed.
End PromiseAll.

Arguments Settlement : clear implicits.
Arguments AllState : clear implicits.

(** ** Concrete runs *)

Lemma promise_all_correct_witness :
  result (promise_all [Fulfilled 10; Rejected "a"; Rejected "b"] [2; 0; 1])
  = Some (promise_all_spec [Fulfilled 10; Rejected "a"; Rejected "b"] [2; 0; 1]) /\
  promise_all_spec [Fulfilled 10; Rejected "a"; Rejected "b"] [2; 0; 1] = Throw "b".
Proof.
  split; [|reflexivity].
  apply promise_all_correct; [apply (bool_decide_unpack _); vm_compute; reflexivity | discriminate].
Defined.

Lemma promise_all_fulfils_iff_witness :
  result (promise_all (Fulfilled <$> [10; 20; 30]) [1; 2; 0]) = Some (Ok [10; 20; 30]).
Proof.
  apply (promise_all_fulfils_iff _ _ [10; 20; 30]);
    [apply (bool_decide_unpack _); vm_compute; reflexivity | discriminate | reflexivity].
Defined.

Lemma promise_all_rejects_early_witness :
  result (fold_left all_step (schedule [Fulfilled 1; Rejected "x"; Fulfilled 3] ([0] ++ [1]))
            (all_init 3)) = Some (Throw "x").
Proof.
  apply (promise_all_rejects_early [Fulfilled 1; Rejected "x"; Fulfilled 3] [0] 1 [2]);
    [apply (bool_decide_unpack _); vm_compute; reflexivity | reflexivity | reflexivity].
Defined.
