(* ===== verification/PortfolioHook.v ===== *)
(** * The aggregation hook: [src/frontend/src/hooks/usePortfolioData.ts]

    [HookState] holds the seven [useState] holders (lines 15-21) with
    their initial values; [World] adds what the effect body touches
    besides them: the URLs it requested, the values it logged with
    [console.error], and a snapshot of the holders at every [await] (the
    only points where React can render while the body runs).

    [fetchPortfolioData net] is the async body of the [useEffect]
    (lines 24-70) in the [Eff] monad: [try { ... } catch (err) { ... }
    finally { setLoading(false) }], the five [fetch] calls issued
    synchronously, one [await Promise.all] (modelled by [PromiseAll]),
    then for each response in source order [if (res.ok) { data = await
    res.json(); setX(data) }].  The network [net] fixes each fetch's
    outcome and the order in which the five promises settle.
    [usePortfolioData net] runs the body from the mount state. *)

From S2P Require Import Prelude Types Api Effect PromiseAll.
From Stdlib Require Import ZArith.

Record HookState := mkHookState {
  profile : option Profile.t;
  skills : list Skill.t;
  projects : list Project.t;
  hobbies : list Hobby.t;
  experiences : list Experience.t;
  loading : bool;
  error : option string
}.

(** The [useState] initial values. *)
Definition initial_state : HookState := mkHookState None [] [] [] [] true None.

(** What a [catch]ing body can be handed: a transport failure (the
    reason [fetch] rejected with), [json()] on a malformed body, or a
    [TypeError] from reading a property of [undefined]. *)
Inductive JsError :=
| FetchFailed (reason : string)
| JsonSyntaxError
| TypeError.

Record World := mkWorld {
  react : HookState;
  requests : list string;
  console : list (string * JsError);   (** [console.error(message, err)] calls *)
  snapshots : list HookState
}.

Definition mount_world : World := mkWorld initial_state [] [] [].

Abbreviation Hook := (Eff World JsError).

Definition set_react (f : HookState -> HookState) : Hook unit :=
  modify (fun w => mkWorld (f (react w)) (requests w) (console w) (snapshots w)).

(** The holder each setter writes, as a pure update of the state. *)
Definition upd_profile (p : option Profile.t) (s : HookState) : HookState :=
  mkHookState p (skills s) (projects s) (hobbies s) (experiences s) (loading s) (error s).
Definition upd_skills (l : list Skill.t) (s : HookState) : HookState :=
  mkHookState (profile s) l (projects s) (hobbies s) (experiences s) (loading s) (error s).
Definition upd_projects (l : list Project.t) (s : HookState) : HookState :=
  mkHookState (profile s) (skills s) l (hobbies s) (experiences s) (loading s) (error s).
Definition upd_hobbies (l : list Hobby.t) (s : HookState) : HookState :=
  mkHookState (profile s) (skills s) (projects s) l (experiences s) (loading s) (error s).
Definition upd_experiences (l : list Experience.t) (s : HookState) : HookState :=
  mkHookState (profile s) (skills s) (projects s) (hobbies s) l (loading s) (error s).
Definition upd_loading (b : bool) (s : HookState) : HookState :=
  mkHookState (profile s) (skills s) (projects s) (hobbies s) (experiences s) b (error s).
Definition upd_error (e : option string) (s : HookState) : HookState :=
  mkHookState (profile s) (skills s) (projects s) (hobbies s) (experiences s) (loading s) e.

Definition setProfile (p : option Profile.t) : Hook unit := set_react (upd_profile p).
Definition setSkills (l : list Skill.t) : Hook unit := set_react (upd_skills l).
Definition setProjects (l : list Project.t) : Hook unit := set_react (upd_projects l).
Definition setHobbies (l : list Hobby.t) : Hook unit := set_react (upd_hobbies l).
Definition setExperiences (l : list Experience.t) : Hook unit := set_react (upd_experiences l).
Definition setLoading (b : bool) : Hook unit := set_react (upd_loading b).
Definition setError (e : option string) : Hook unit := set_react (upd_error e).

(** [fetch(url)]: the request is issued (logged) at once. *)
Definition fetch (e : Endpoint) : Hook unit :=
  modify (fun w => mkWorld (react w) (requests w ++ [API_ENDPOINTS e]) (console w) (snapshots w)).

Definition console_error (message : string) (err : JsError) : Hook unit :=
  modify (fun w => mkWorld (react w) (requests w) (console w ++ [(message, err)]) (snapshots w)).

(** [await p]: the body suspends (React may render the current holders),
    then resumes with [p]'s outcome. *)
Definition await {A} (p : Exc JsError A) : Hook A :=
  modify (fun w => mkWorld (react w) (requests w) (console w) (snapshots w ++ [react w])) ;;
  of_exc p.

Definition json {A} (r : Response A) : Exc JsError A :=
  match body r with Some a => Ok a | None => Throw JsonSyntaxError end.

(** ** The network *)

(** The five responses, as the elements of the array [Promise.all]
    resolves with. *)
Inductive Fetched :=
| FProfile (r : Response Profile.t)
| FSkills (r : Response (list Skill.t))
| FProjects (r : Response (list Project.t))
| FHobbies (r : Response (list Hobby.t))
| FExperiences (r : Response (list Experience.t)).

Record Net := mkNet {
  profileRes : FetchResult Profile.t;
  skillsRes : FetchResult (list Skill.t);
  projectsRes : FetchResult (list Project.t);
  hobbiesRes : FetchResult (list Hobby.t);
  experiencesRes : FetchResult (list Experience.t);
  order : list nat   (** the order in which the five promises settle *)
}.

Definition settle {A} (inj : Response A -> Fetched) (f : FetchResult A) : Settlement Fetched :=
  match f with
  | NetworkError r => Rejected r
  | Completed resp => Fulfilled (inj resp)
  end.

Definition settlements (net : Net) : list (Settlement Fetched) :=
  [settle FProfile (profileRes net); settle FSkills (skillsRes net);
   settle FProjects (projectsRes net); settle FHobbies (hobbiesRes net);
   settle FExperiences (experiencesRes net)].

(** A network is well formed when each of the five promises settles
    exactly once. *)
Definition valid_net (net : Net) : Prop := order net ≡ₚ seq 0 5.

(** The outcome [await Promise.all([...])] resumes with. *)
Definition promise_all_fetches (net : Net) : Exc JsError (list Fetched) :=
  match result (promise_all (settlements net) (order net)) with
  | Some (Ok vs) => Ok vs
  | Some (Throw r) => Throw (FetchFailed r)
  | Some Pending | None => Pending
  end.

(** ** The effect body *)

(** [if (res.ok) { const data = await res.json(); setX(data) }] *)
Definition accept {A} (res : Response A) (set : A -> Hook unit) : Hook unit :=
  if ok res then (data <- await (json res) ;; set data) else ret tt.

Definition FAILED_MESSAGE : string := "Failed to load portfolio data. Please try again later.".

(** Lines 38-62: the responses, handled one after the other in source
    order.  [Promise.all] resolves with an array of exactly five
    elements, so the fallback branch (reading [.ok] of [undefined]) is
    never taken under a well-formed network. *)
Definition handle_responses (vs : list Fetched) : Hook unit :=
  match vs with
  | [FProfile profileRes; FSkills skillsRes; FProjects projectsRes;
     FHobbies hobbiesRes; FExperiences experiencesRes] =>
      accept profileRes (fun d => setProfile (Some d)) ;;
      accept skillsRes setSkills ;;
      accept projectsRes setProjects ;;
      accept hobbiesRes setHobbies ;;
      accept experiencesRes setExperiences
  | _ => throw TypeError
  end.

(** Line 65: the message logged with the error. *)
Definition CONSOLE_MESSAGE : string := "Error fetching portfolio data:".

Definition on_error (err : JsError) : Hook unit :=
  console_error CONSOLE_MESSAGE err ;; setError (Some FAILED_MESSAGE).

Definition fetchPortfolioData (net : Net) : Hook unit :=
  finally
    (catch
      (setLoading true ;;
       setError None ;;
       fetch PROFILE ;; fetch SKILLS ;; fetch PROJECTS ;; fetch HOBBIES ;; fetch EXPERIENCES ;;
       vs <- await (promise_all_fetches net) ;;
       handle_responses vs)
      on_error)
    (setLoading false).

(** Mount: the first render shows [initial_state]; the effect then runs
    once ([useEffect(..., [])]).  The world when the body has finished. *)
Definition usePortfolioData (net : Net) : World :=
  snd (fetchPortfolioData net mount_world).

(** Every state React may render during the cycle: the mount state, the
    states at the suspension points, the final state. *)
Definition rendered_states (net : Net) : list HookState :=
  initial_state :: snapshots (usePortfolioData net) ++ [react (usePortfolioData net)].

(** ** The contract of spec.md, section 4.2

    Each resource independently: a transport failure, a non-ok status or
    (spec, section 7) a malformed body leaves the holder at its default;
    an ok response stores its decoded body.  The cycle ends [ready]. *)

Definition accepted {A} (f : FetchResult A) : option A :=
  match f with
  | Completed r => if ok r then body r else None
  | NetworkError _ => None
  end.

Definition spec_ready (net : Net) : HookState :=
  mkHookState (accepted (profileRes net))
    (default [] (accepted (skillsRes net))) (default [] (accepted (projectsRes net)))
    (default [] (accepted (hobbiesRes net))) (default [] (accepted (experiencesRes net)))
    false None.

(** The full-page error state: holders at their defaults. *)
Definition error_state : HookState := mkHookState None [] [] [] [] false (Some FAILED_MESSAGE).

Definition network_error {A} (f : FetchResult A) : bool :=
  match f with NetworkError _ => true | Completed _ => false end.

Definition decode_failure {A} (f : FetchResult A) : bool :=
  match f with
  | Completed r => ok r && match body r with Some _ => false | None => true end
  | NetworkError _ => false
  end.

Definition has_network_error (net : Net) : bool :=
  network_error (profileRes net) || network_error (skillsRes net) ||
  network_error (projectsRes net) || network_error (hobbiesRes net) ||
  network_error (experiencesRes net).

Definition has_decode_failure (net : Net) : bool :=
  decode_failure (profileRes net) || decode_failure (skillsRes net) ||
  decode_failure (projectsRes net) || decode_failure (hobbiesRes net) ||
  decode_failure (experiencesRes net).

(** ** Running the body *)

Definition urls : list string :=
  map API_ENDPOINTS [PROFILE; SKILLS; PROJECTS; HOBBIES; EXPERIENCES].

(** The world at the [await Promise.all]: five requests issued, the
    mount state snapshotted. *)
Definition w_await : World := mkWorld initial_state urls [] [initial_state].

Lemma run_fetchPortfolioData net :
  fetchPortfolioData net mount_world =
  match promise_all_fetches net with
  | Ok vs => finally (catch (handle_responses vs) on_error) (setLoading false) w_await
  | Throw e => (Ok tt, mkWorld error_state urls [(CONSOLE_MESSAGE, e)] [initial_state])
  | Pending => (Pending, w_await)
  end.
Proof. unfold fetchPortfolioData. by destruct (promise_all_fetches net). Qed.

Definition snap (w : World) : World :=
  mkWorld (react w) (requests w) (console w) (snapshots w ++ [react w]).

Lemma run_accept {A} (r : Response A) (set : A -> Hook unit) w :
  accept r set w =
    if ok r then match body r with
                 | Some d => set d (snap w)
                 | None => (Throw JsonSyntaxError, snap w)
                 end
    else (Ok tt, w).
Proof. unfold accept, await, json. by destruct (ok r), (body r). Qed.

Lemma promise_all_fetches_completed r1 r2 r3 r4 r5 ord :
  valid_net (mkNet (Completed r1) (Completed r2) (Completed r3) (Completed r4) (Completed r5) ord) ->
  promise_all_fetches (mkNet (Completed r1) (Completed r2) (Completed r3) (Completed r4) (Completed r5) ord)
  = Ok [FProfile r1; FSkills r2; FProjects r3; FHobbies r4; FExperiences r5].
Proof.
  intros Hv. unfold promise_all_fetches.
  rewrite (proj2 (promise_all_fulfils (settlements _) ord
    [FProfile r1; FSkills r2; FProjects r3; FHobbies r4; FExperiences r5] Hv ltac:(done)));
    done.
Qed.

Lemma has_network_error_rejected net :
  has_network_error net = true -> exists r, Rejected r ∈ settlements net.
Proof.
  destruct net as [[r1|] [r2|] [r3|] [r4|] [r5|] ord]; simpl; intros H;
    try discriminate; eexists; unfold settlements; simpl; by repeat constructor.
Qed.

Lemma promise_all_fetches_rejected net :
  valid_net net -> has_network_error net = true ->
  exists r, promise_all_fetches net = Throw (FetchFailed r).
Proof.
  intros Hv Herr. apply has_network_error_rejected in Herr as [r Hr].
  unfold promise_all_fetches. rewrite promise_all_result by done.
  unfold promise_all_spec. destruct (first_rejection _) as [r'|] eqn:Hrej; [by eexists|].
  apply no_rejection_all_fulfilled in Hrej; [|done].
  rewrite Hrej in Hr. apply list_elem_of_fmap in Hr as (? & [=] & _).
Qed.

Lemma valid_net_not_pending net :
  valid_net net -> promise_all_fetches net <> Pending.
Proof.
  intros Hv. destruct (has_network_error net) eqn:Herr.
  - by destruct (promise_all_fetches_rejected net Hv Herr) as [r ->].
  - destruct net as [[|r1] [|r2] [|r3] [|r4] [|r5] ord]; try discriminate.
    by rewrite promise_all_fetches_completed.
Qed.

(** Split one [res.ok] test and its [json()] outcome. *)
Ltac run_accepts :=
  repeat match goal with
  | |- context [accept ?r ?set ?w] =>
      rewrite (run_accept r set w); destruct (ok r) eqn:?; [destruct (body r) eqn:?|]; simpl
  end.

Ltac close_leaf :=
  unfold has_decode_failure, decode_failure, spec_ready, accepted in *; simpl in *;
  repeat match goal with
         | H : ok ?r = _ |- _ => rewrite H in *; clear H
         | H : body ?r = _ |- _ => rewrite H in *; clear H
         end;
  simpl in *; try discriminate; try reflexivity.

(** The final holders when every fetch is served with a well-formed body. *)
Lemma final_ready net :
  valid_net net -> has_network_error net = false -> has_decode_failure net = false ->
  react (usePortfolioData net) = spec_ready net.
Proof.
  intros Hv Hnet Hdec. unfold usePortfolioData. rewrite run_fetchPortfolioData.
  destruct net as [[|r1] [|r2] [|r3] [|r4] [|r5] ord]; try discriminate.
  rewrite promise_all_fetches_completed by done.
  unfold handle_responses, finally, catch, bind. run_accepts.
  all: close_leaf.
Qed.

(** C1. Refinement: when no fetch fails in transport and every ok
    response has a well-formed body, the cycle ends exactly in the state
    the contract of spec.md section 4.2 prescribes: [loading] cleared, no
    error, each holder holding its ok response's body and every non-ok
    resource left at its default. *)
Theorem hook_refines_spec net :
  valid_net net -> has_network_error net = false -> has_decode_failure net = false ->
  react (usePortfolioData net) = spec_ready net.
Proof. intros. by apply final_ready. Qed.

(** ** Invariants of the cycle *)

(** Reduce a [preserves] goal on the hook's operations to one obligation
    per primitive write. *)
Ltac preserve_tac :=
  repeat match goal with
  | |- preserves _ (bind _ _) => apply preserves_bind; [|intros ?]
  | |- preserves _ (catch _ _) => apply preserves_catch; [|intros ?]
  | |- preserves _ (finally _ _) => apply preserves_finally
  | |- preserves _ (fetchPortfolioData _) => unfold fetchPortfolioData
  | |- preserves _ (ret _) => apply preserves_ret
  | |- preserves _ (throw _) => apply preserves_throw
  | |- preserves _ (of_exc _) => apply preserves_of_exc
  | |- preserves _ (modify _) => apply preserves_modify; intros [? ? ? ?]; simpl
  | |- preserves _ (accept _ _) => unfold accept; case_if
  | |- preserves _ (handle_responses ?vs) => unfold handle_responses; repeat case_match
  | |- preserves _ (on_error _) => unfold on_error
  | |- preserves _ (await _) => unfold await
  | |- preserves _ (fetch _) => unfold fetch
  | |- preserves _ (console_error _ _) => unfold console_error
  | |- preserves _ (set_react _) => unfold set_react
  | |- preserves _ (setProfile _) => unfold setProfile
  | |- preserves _ (setSkills _) => unfold setSkills
  | |- preserves _ (setProjects _) => unfold setProjects
  | |- preserves _ (setHobbies _) => unfold setHobbies
  | |- preserves _ (setExperiences _) => unfold setExperiences
  | |- preserves _ (setLoading _) => unfold setLoading
  | |- preserves _ (setError _) => unfold setError
  end.

(** C9. Whatever the network does, the cycle requests exactly the five
    resources, once each, in the order of the source; the featured
    projects and contacts endpoints are never requested. *)
Theorem hook_requests net :
  requests (usePortfolioData net) = map API_ENDPOINTS [PROFILE; SKILLS; PROJECTS; HOBBIES; EXPERIENCES].
Proof.
  unfold usePortfolioData. rewrite run_fetchPortfolioData.
  destruct (promise_all_fetches net) as [vs|e|]; [|done|done].
  apply (finally_into (fun w => requests w = urls)); [|preserve_tac; done|done].
  apply (catch_into (fun w => requests w = urls) (fun w => requests w = urls));
    [preserve_tac; intros; tauto|done|intros; preserve_tac; tauto].
Qed.

Definition suspended_ok (s : HookState) : Prop := loading s = true /\ error s = None.

(** The holders at the mount and at every suspension point. *)
Lemma snapshots_suspended net :
  Forall suspended_ok (initial_state :: snapshots (usePortfolioData net)).
Proof.
  constructor; [done|]. unfold usePortfolioData. rewrite run_fetchPortfolioData.
  destruct (promise_all_fetches net) as [vs|e|]; [| by repeat constructor | by repeat constructor].
  apply (finally_into (fun w => Forall suspended_ok (snapshots w) /\ suspended_ok (react w))
                      (fun w => Forall suspended_ok (snapshots w)));
    [| preserve_tac; tauto | split; repeat constructor].
  apply (catch_into (fun w => Forall suspended_ok (snapshots w) /\ suspended_ok (react w))
                    (fun w => Forall suspended_ok (snapshots w)));
    [|tauto|intros; preserve_tac; tauto].
  preserve_tac; intros [Hs Hr]; unfold suspended_ok in *; simpl in *;
    rewrite ?Forall_app, ?Forall_singleton; naive_solver.
Qed.

(** C7. Every state React can render while the cycle is under way (the
    mount state and the state at each [await]) shows [loading] and no
    error: the partially filled holders written between two [await]s are
    never rendered outside the loading spinner. *)
Theorem hook_loading_discipline net :
  Forall suspended_ok (initial_state :: snapshots (usePortfolioData net)).
Proof. intros. by apply snapshots_suspended. Qed.

(** The final holders after a transport failure. *)
Lemma final_network_error net :
  valid_net net -> has_network_error net = true ->
  react (usePortfolioData net) = error_state.
Proof.
  intros Hv Herr. unfold usePortfolioData. rewrite run_fetchPortfolioData.
  by destruct (promise_all_fetches_rejected net Hv Herr) as [r ->].
Qed.

(** C2. A single transport failure blanks the whole page: when any of
    the five fetches rejects, [Promise.all] rejects, the [catch] runs, and
    the cycle ends in the full-page error state with every holder at its
    default, even if the other four resources were served.  (spec.md,
    sections 4.2 and 8, Scenario B, expects [spec_ready] instead.) *)
Theorem hook_network_error net :
  valid_net net -> has_network_error net = true ->
  react (usePortfolioData net) = error_state.
Proof. intros. by apply final_network_error. Qed.

(** The final [loading] and [error] flags. *)
Lemma final_flags net :
  valid_net net ->
  loading (react (usePortfolioData net)) = false /\
  error (react (usePortfolioData net)) =
    if has_network_error net || has_decode_failure net then Some FAILED_MESSAGE else None.
Proof.
  intros Hv. destruct (has_network_error net) eqn:Hnet.
  - by rewrite final_network_error.
  - unfold usePortfolioData. rewrite run_fetchPortfolioData.
    destruct net as [[|r1] [|r2] [|r3] [|r4] [|r5] ord]; try discriminate.
    rewrite promise_all_fetches_completed by done.
    unfold handle_responses, finally, catch, bind. run_accepts.
    all: close_leaf; done.
Qed.

(** C6. The terminal state: with a well-formed network the cycle always
    ends with [loading] cleared, and with the fixed error message exactly
    when some fetch failed in transport or some ok response had a
    malformed body; otherwise with no error. *)
Theorem hook_final_state net :
  valid_net net ->
  loading (react (usePortfolioData net)) = false /\
  error (react (usePortfolioData net)) =
    if has_network_error net || has_decode_failure net then Some FAILED_MESSAGE else None.
Proof. intros. by apply final_flags. Qed.

(** C8. The completion order of the five requests does not matter: two
    runs that differ only in the order the promises settle end in the
    same holders, flags and message (only the logged rejection reason may
    differ). *)
Theorem hook_order_independent net ord' :
  valid_net net -> ord' ≡ₚ seq 0 5 ->
  react (usePortfolioData (mkNet (profileRes net) (skillsRes net) (projectsRes net)
                                 (hobbiesRes net) (experiencesRes net) ord'))
  = react (usePortfolioData net).
Proof.
  intros Hv Hv'. destruct (has_network_error net) eqn:Hnet.
  - rewrite !final_network_error; done.
  - unfold usePortfolioData. rewrite !run_fetchPortfolioData.
    destruct net as [[|r1] [|r2] [|r3] [|r4] [|r5] ord]; try discriminate.
    simpl. rewrite !promise_all_fetches_completed by done. done.
Qed.

(** C10. A malformed body does not reset what was already stored: if the
    last resource's ok response is malformed, the cycle ends in the error
    state while the four holders written before it keep their values.
    (spec.md, section 7, requires decode failures not to escalate.) *)
Theorem hook_decode_failure_keeps_prefix r1 r2 r3 r4 r5 ord :
  let net := mkNet (Completed r1) (Completed r2) (Completed r3) (Completed r4) (Completed r5) ord in
  valid_net net ->
  decode_failure (profileRes net) || decode_failure (skillsRes net) ||
  decode_failure (projectsRes net) || decode_failure (hobbiesRes net) = false ->
  ok r5 = true -> body r5 = None ->
  react (usePortfolioData net) =
    mkHookState (accepted (profileRes net))
      (default [] (accepted (skillsRes net))) (default [] (accepted (projectsRes net)))
      (default [] (accepted (hobbiesRes net))) [] false (Some FAILED_MESSAGE).
Proof.
  intros net Hv Hdec Hok Hbody. subst net. unfold usePortfolioData. rewrite run_fetchPortfolioData.
  rewrite promise_all_fetches_completed by done.
  unfold handle_responses, finally, catch, bind. run_accepts.
  all: close_leaf.
Qed.

(** ** A pure reference for the cycle's outcome

    [reference_final] computes the final holders without the monad: a
    transport failure gives the error state; otherwise the five
    [if (res.ok)] tests run in source order, each ok body stored, and the
    first malformed body stops the run with the error message set. *)

Definition ref_accept {A} (f : FetchResult A) (upd : A -> HookState -> HookState)
    (acc : HookState * bool) : HookState * bool :=
  let '(s, failed) := acc in
  if failed then acc else
  match f with
  | Completed r =>
      if ok r then match body r with Some d => (upd d s, false) | None => (s, true) end else acc
  | NetworkError _ => acc
  end.

(** A property of the holders that the defaults have and that storing a
    decoded body keeps holds after the reference step. *)
Lemma ref_accept_inv {A} (Q : HookState -> Prop) (f : FetchResult A) upd acc :
  Q acc.1 -> (forall r d s, f = Completed r -> body r = Some d -> Q s -> Q (upd d s)) ->
  Q (ref_accept f upd acc).1.
Proof.
  destruct acc as [s failed]. intros Hs Hupd. simpl.
  destruct failed; [done|]. destruct f as [|r]; [done|].
  destruct (ok r); [|done]. destruct (body r) eqn:Hb; [|done]. simpl. eauto.
Qed.

Definition reference_final (net : Net) : HookState :=
  if has_network_error net then error_state else
  let '(s, failed) :=
    ref_accept (experiencesRes net) upd_experiences
      (ref_accept (hobbiesRes net) upd_hobbies
        (ref_accept (projectsRes net) upd_projects
          (ref_accept (skillsRes net) upd_skills
            (ref_accept (profileRes net) (fun d => upd_profile (Some d)) (initial_state, false))))) in
  upd_loading false (if failed then upd_error (Some FAILED_MESSAGE) s else s).

(** Run the five [accept]s of a served network, one leaf per outcome. *)
Ltac run_served net :=
  destruct net as [[|r1] [|r2] [|r3] [|r4] [|r5] ord]; try discriminate;
  unfold usePortfolioData; rewrite run_fetchPortfolioData, promise_all_fetches_completed by done;
  unfold handle_responses, finally, catch, bind; run_accepts.

(** The final holders are those of the reference fold. *)
Lemma final_reference net :
  valid_net net -> react (usePortfolioData net) = reference_final net.
Proof.
  intros Hv. destruct (has_network_error net) eqn:Hnet.
  - rewrite final_network_error by done. unfold reference_final. by rewrite Hnet.
  - unfold reference_final. rewrite Hnet. run_served net.
    all: unfold ref_accept; simpl in *;
      repeat match goal with
             | H : ok ?r = _ |- _ => rewrite H in *; clear H
             | H : body ?r = _ |- _ => rewrite H in *; clear H
             end; reflexivity.
Qed.

(** C25. The effectful hook is equivalent to the pure reference: for every
    well-formed network the final holders are [reference_final net].  In
    particular a malformed body at any position keeps the holders written
    before it and leaves the later ones at their defaults. *)
Theorem hook_equiv_reference net :
  valid_net net -> react (usePortfolioData net) = reference_final net.
Proof. apply final_reference. Qed.


(** C26. Termination: with a well-formed network the async body always
    finishes, and the promise [fetchPortfolioData()] returns (line 72,
    never awaited) fulfils: it is never left pending and never rejects, so
    there is no unhandled rejection. *)
Theorem hook_completes net :
  valid_net net -> fst (fetchPortfolioData net mount_world) = Ok tt.
Proof.
  intros Hv. destruct (has_network_error net) eqn:Hnet.
  - rewrite run_fetchPortfolioData.
    by destruct (promise_all_fetches_rejected net Hv Hnet) as [r ->].
  - destruct net as [[|r1] [|r2] [|r3] [|r4] [|r5] ord]; try discriminate.
    rewrite run_fetchPortfolioData, promise_all_fetches_completed by done.
    unfold handle_responses, finally, catch, bind. run_accepts. all: reflexivity.
Qed.

(** The error holder is [null] or the fixed message. *)
Definition error_wf (s : HookState) : Prop := error s = None \/ error s = Some FAILED_MESSAGE.

(** The error holder in every rendered state. *)
Lemma rendered_error_wf net : Forall error_wf (rendered_states net).
Proof.
  assert (Hp : preserves (fun w => Forall error_wf (snapshots w) /\ error_wf (react w))
                         (fetchPortfolioData net)).
  { preserve_tac; intros [Hs Hr]; unfold error_wf in *; simpl in *;
      rewrite ?Forall_app, ?Forall_singleton; naive_solver. }
  destruct (Hp mount_world) as [Hs Hr]; [split; [constructor|by left]|].
  unfold rendered_states, usePortfolioData. constructor; [by left|].
  apply Forall_app. split; [done|by constructor].
Qed.

(** C27. Type of the error holder: in every state React may render during
    a cycle, whatever the network does, [error] is [null] or the one fixed
    message; no exception text reaches the view. *)
Theorem hook_error_wf net : Forall error_wf (rendered_states net).
Proof. apply rendered_error_wf. Qed.

(** [await Promise.all([...])] resumes with the contract's outcome. *)
Lemma promise_all_fetches_spec net :
  valid_net net ->
  promise_all_fetches net =
    match first_rejection (schedule (settlements net) (order net)) with
    | Some r => Throw (FetchFailed r)
    | None => Ok (omap fulfilled_value (settlements net))
    end.
Proof.
  intros Hv. unfold promise_all_fetches. rewrite promise_all_result by done.
  unfold promise_all_spec. by destruct (first_rejection _).
Qed.

(** C32. The console log of a cycle: one [console.error] with the
    message of line 65 and the reason of the first fetch to reject in
    completion order when [Promise.all] rejects; otherwise one such entry
    with the [SyntaxError] when some ok body is malformed, and nothing
    when every body decodes. *)
Theorem hook_console net :
  valid_net net ->
  console (usePortfolioData net) =
    match first_rejection (schedule (settlements net) (order net)) with
    | Some r => [(CONSOLE_MESSAGE, FetchFailed r)]
    | None => if has_decode_failure net then [(CONSOLE_MESSAGE, JsonSyntaxError)] else []
    end.
Proof.
  intros Hv. unfold usePortfolioData. rewrite run_fetchPortfolioData.
  destruct (first_rejection _) as [r|] eqn:Hrej.
  { by rewrite (promise_all_fetches_spec net Hv), Hrej. }
  destruct (has_network_error net) eqn:Hnet.
  { destruct (promise_all_fetches_rejected net Hv Hnet) as [r Hr].
    rewrite (promise_all_fetches_spec net Hv), Hrej in Hr. discriminate. }
  destruct net as [[|r1] [|r2] [|r3] [|r4] [|r5] ord]; try discriminate.
  rewrite promise_all_fetches_completed by done.
  unfold handle_responses, finally, catch, bind. run_accepts. all: close_leaf.
Qed.

(** ** Scenarios of spec.md, section 8, as witnesses *)

Definition jane : Profile.t :=
  Profile.mk 1%Z "Jane Doe" "Engineer" "..." None None None None None None None.

Definition rocq_skill : Skill.t := Skill.mk 7 "Rocq" "Verification" None (QArith_base.Qmake 90 1) None.

(** Scenario A: every resource ok, collections empty; the promises
    settle in the order 3, 1, 0, 4, 2. *)
Definition scenarioA : Net :=
  mkNet (Completed (mkResponse 200 (Some jane))) (Completed (mkResponse 200 (Some [])))
        (Completed (mkResponse 200 (Some []))) (Completed (mkResponse 200 (Some [])))
        (Completed (mkResponse 200 (Some []))) [3; 1; 0; 4; 2].

(** Scenario B: the profile request fails in transport, the others are
    served. *)
Definition scenarioB : Net :=
  mkNet (NetworkError "Failed to fetch") (Completed (mkResponse 200 (Some [rocq_skill])))
        (Completed (mkResponse 200 (Some []))) (Completed (mkResponse 200 (Some [])))
        (Completed (mkResponse 200 (Some []))) [0; 1; 2; 3; 4].

(** A 404 on projects and a malformed experiences body. *)
Definition scenarioD : Net :=
  mkNet (Completed (mkResponse 200 (Some jane))) (Completed (mkResponse 200 (Some [rocq_skill])))
        (Completed (mkResponse 404 None)) (Completed (mkResponse 200 (Some [])))
        (Completed (mkResponse 200 None)) [4; 3; 2; 1; 0].

Ltac decide_valid := apply (bool_decide_unpack _); vm_compute; reflexivity.

Lemma hook_refines_spec_witness :
  react (usePortfolioData scenarioA) = spec_ready scenarioA /\
  profile (spec_ready scenarioA) = Some jane /\ error (spec_ready scenarioA) = None.
Proof.
  split; [|split; reflexivity].
  apply hook_refines_spec; [decide_valid | reflexivity | reflexivity].
Defined.

Lemma hook_network_error_witness :
  react (usePortfolioData scenarioB) = error_state /\ skills (spec_ready scenarioB) = [rocq_skill].
Proof.
  split; [|reflexivity].
  apply hook_network_error; [decide_valid | reflexivity].
Defined.

Lemma hook_final_state_witness :
  loading (react (usePortfolioData scenarioD)) = false /\
  error (react (usePortfolioData scenarioD)) = Some FAILED_MESSAGE.
Proof. apply hook_final_state. decide_valid. Defined.

Lemma hook_order_independent_witness :
  react (usePortfolioData (mkNet (profileRes scenarioA) (skillsRes scenarioA) (projectsRes scenarioA)
                                 (hobbiesRes scenarioA) (experiencesRes scenarioA) [0; 1; 2; 3; 4]))
  = react (usePortfolioData scenarioA).
Proof. apply hook_order_independent; decide_valid. Defined.

Lemma hook_decode_failure_keeps_prefix_witness :
  react (usePortfolioData scenarioD) =
    mkHookState (Some jane) [rocq_skill] [] [] [] false (Some FAILED_MESSAGE).
Proof.
  unfold scenarioD. erewrite hook_decode_failure_keeps_prefix;
    [reflexivity | decide_valid | reflexivity | reflexivity | reflexivity].
Defined.

Lemma hook_equiv_reference_witness :
  react (usePortfolioData scenarioD) = reference_final scenarioD.
Proof. apply hook_equiv_reference. apply (bool_decide_unpack _); vm_compute; reflexivity. Defined.

Lemma hook_completes_witness : fst (fetchPortfolioData scenarioB mount_world) = Ok tt.
Proof. apply hook_completes. apply (bool_decide_unpack _); vm_compute; reflexivity. Defined.


Lemma hook_console_witness :
  console (usePortfolioData scenarioB) =
    match first_rejection (schedule (settlements scenarioB) (order scenarioB)) with
    | Some r => [(CONSOLE_MESSAGE, FetchFailed r)]
    | None => if has_decode_failure scenarioB then [(CONSOLE_MESSAGE, JsonSyntaxError)] else []
    end.
Proof. apply hook_console. decide_valid. Defined.
