(* ===== verification/Lifecycle.v ===== *)
(** * The cycle's lifecycle and the hook's contract with the view layer

    spec.md, section 4.2, describes the fetch cycle as a state machine:
    loading, then one of the terminal states ready or error, with no
    re-entry into loading.  [phase_step] is that machine; [phase] reads a
    hook state as one of its states, the way [App.tsx] does (loading
    first, then a truthy error).  [hook_phases] shows that the states React
    may render during a cycle trace a path of the machine.
    [holders_le] orders states by how far their data holders are
    written; [hook_holders_monotone] shows that the rendered states are a
    chain of it ending in the final state.

    [PortfolioSource] states what the view layer relies on from whatever
    produces its states: a non-empty sequence of renders, all but the last
    loading with no error, the last one (for a well-formed environment)
    not loading, and the error holder always [null] or the fixed message.
    The hook is an instance ([Hook_source]); [Layout.v] proves the view's
    theorems against the class. *)

From S2P Require Import Prelude Types Api Effect PromiseAll PortfolioHook.
From stdpp Require Import relations.

Inductive Phase := PLoading | PReady | PError.

#[export] Instance Phase_eq_dec : EqDecision Phase.
Proof. solve_decision. Defined.

Inductive phase_step : Phase -> Phase -> Prop :=
| stay_loading : phase_step PLoading PLoading
| to_ready : phase_step PLoading PReady
| to_error : phase_step PLoading PError.

#[export] Hint Constructors phase_step : portfolio.

Definition phase (s : HookState) : Phase :=
  if loading s then PLoading else if truthy (error s) then PError else PReady.

Definition terminal (p : Phase) : Prop := forall p', ~ phase_step p p'.

(** Consecutive elements related by [R]. *)
Fixpoint chain {A} (R : A -> A -> Prop) (l : list A) : Prop :=
  match l with
  | x :: ((y :: _) as l') => R x y /\ chain R l'
  | _ => True
  end.

Lemma chain_rtc {A} (R : A -> A -> Prop) x l y :
  chain R (x :: l) -> last (x :: l) = Some y -> rtc R x y.
Proof.
  revert x. induction l as [|z l IH]; intros x Hc Hl; simpl in *.
  - injection Hl as ->. constructor.
  - destruct Hc as [Hxz Hc]. eapply rtc_l; [exact Hxz|]. apply IH; [done|].
    destruct l; done.
Qed.

Lemma ready_terminal : terminal PReady.
Proof. intros p Hs. inversion Hs. Qed.

Lemma error_terminal : terminal PError.
Proof. intros p Hs. inversion Hs. Qed.

(** Loading phases followed by one terminal phase form a path. *)
Lemma chain_loading_then (xs : list Phase) y :
  Forall (fun p => p = PLoading) xs -> y <> PLoading ->
  chain phase_step (xs ++ [y]).
Proof.
  induction xs as [|x xs IH]; intros Hxs Hy; simpl; [done|].
  apply Forall_cons in Hxs as [-> Hxs].
  destruct xs as [|x' xs]; simpl.
  - split; [|done]. destruct y; [done|constructor|constructor].
  - pose proof (IH Hxs Hy) as IH'. apply Forall_cons in Hxs as [-> _].
    split; [constructor|exact IH'].
Qed.

Lemma last_map {A B} (f : A -> B) (l : list A) : last (map f l) = option_map f (last l).
Proof. induction l as [|x [|y l] IH]; simpl in *; auto. Qed.

Lemma rendered_states_split net :
  removelast (rendered_states net) = initial_state :: snapshots (usePortfolioData net) /\
  last (rendered_states net) = Some (react (usePortfolioData net)).
Proof.
  unfold rendered_states. rewrite app_comm_cons. split.
  - by rewrite removelast_last.
  - by rewrite last_app.
Qed.

(** C28. Refinement of the spec's state machine: the states React may
    render during a cycle on a well-formed network trace a path of
    [phase_step] that starts in loading and ends in a terminal phase (ready
    or error), so loading is never re-entered. *)
Theorem hook_phases net :
  valid_net net ->
  chain phase_step (map phase (rendered_states net)) /\
  rtc phase_step PLoading (phase (react (usePortfolioData net))) /\
  terminal (phase (react (usePortfolioData net))).
Proof.
  intros Hv. destruct (final_flags net Hv) as [Hl _].
  assert (Hfin : phase (react (usePortfolioData net)) <> PLoading).
  { unfold phase. rewrite Hl. by case_if. }
  assert (Hmid : Forall (fun p => p = PLoading) (map phase (initial_state :: snapshots (usePortfolioData net)))).
  { apply Forall_fmap. eapply Forall_impl; [apply snapshots_suspended|].
    intros s [Hs _]. simpl. unfold phase. by rewrite Hs. }
  assert (Hchain : chain phase_step (map phase (rendered_states net))).
  { unfold rendered_states. rewrite app_comm_cons, map_app. by apply chain_loading_then. }
  split_and!; [done| |].
  - unfold rendered_states in Hchain. simpl in Hchain.
    eapply (chain_rtc _ _ _ _ Hchain).
    change (last (map phase (rendered_states net)) = Some (phase (react (usePortfolioData net)))).
    by rewrite last_map, (proj2 (rendered_states_split net)).
  - unfold phase in *. rewrite Hl in *. case_if; [apply error_terminal|apply ready_terminal].
Qed.

Lemma hook_phases_witness :
  chain phase_step (map phase (rendered_states scenarioA)) /\
  rtc phase_step PLoading (phase (react (usePortfolioData scenarioA))) /\
  terminal (phase (react (usePortfolioData scenarioA))).
Proof. apply hook_phases. apply (bool_decide_unpack _); vm_compute; reflexivity. Defined.

(** ** Each holder is written at most once *)

(** [x] is still the default or already [y]. *)
Definition holder_le {A} (default : A) (x y : A) : Prop := x = default \/ x = y.

(** The data holders of [s] are a stage of those of [t]: each is still at
    its [useState] default or already at its value in [t]. *)
Definition holders_le (s t : HookState) : Prop :=
  holder_le None (profile s) (profile t) /\ holder_le [] (skills s) (skills t) /\
  holder_le [] (projects s) (projects t) /\ holder_le [] (hobbies s) (hobbies t) /\
  holder_le [] (experiences s) (experiences t).

Lemma holder_le_trans {A} (d x y z : A) : holder_le d x y -> holder_le d y z -> holder_le d x z.
Proof. unfold holder_le. intros [-> | ->] [-> | ->]; auto. Qed.

#[export] Instance holders_le_preorder : PreOrder holders_le.
Proof.
  split.
  - intros s. unfold holders_le, holder_le. naive_solver.
  - intros s t u (?&?&?&?&?) (?&?&?&?&?). split_and!; eapply holder_le_trans; eauto.
Qed.

(** Along a chain of a preorder, every element is below the last. *)
Lemma chain_below_last {A} (R : A -> A -> Prop) `{!PreOrder R} x l y :
  chain R (x :: l) -> last (x :: l) = Some y -> Forall (fun z => R z y) (x :: l).
Proof.
  revert x. induction l as [|z l IH]; intros x Hc Hl; simpl in *.
  - injection Hl as <-. repeat constructor. reflexivity.
  - destruct Hc as [Hxz Hc]. assert (Hl' : last (z :: l) = Some y) by (destruct l; done).
    pose proof (IH z Hc Hl') as Hall. constructor; [|done].
    apply Forall_cons in Hall as [Hzy _]. by transitivity z.
Qed.

(** Solve [holders_le] between two computed states. *)
Ltac holders_le_tac :=
  unfold holders_le, holder_le; simpl;
  repeat split; first [left; reflexivity | right; reflexivity].

Lemma rendered_holders_chain net : valid_net net -> chain holders_le (rendered_states net).
Proof.
  intros Hv. unfold rendered_states. destruct (has_network_error net) eqn:Hnet.
  - unfold usePortfolioData. rewrite run_fetchPortfolioData.
    destruct (promise_all_fetches_rejected net Hv Hnet) as [r ->]. simpl. split_and!; holders_le_tac.
  - run_served net. all: simpl; split_and!; try done; holders_le_tac.
Qed.

(** C12. The order in which the holders are written: over the states
    React may render during a cycle on a well-formed network, each data
    holder goes from its default to one value and never changes again,
    so every state shown is a stage of the final one: its holders are
    defaults or already final. *)
Theorem hook_holders_monotone net :
  valid_net net ->
  chain holders_le (rendered_states net) /\
  Forall (fun s => holders_le s (react (usePortfolioData net))) (rendered_states net).
Proof.
  intros Hv. pose proof (rendered_holders_chain net Hv) as Hc. split; [done|].
  unfold rendered_states in Hc |- *. eapply chain_below_last; [apply _|exact Hc|].
  exact (proj2 (rendered_states_split net)).
Qed.

(** ** The contract between the hook and the view layer *)

Class PortfolioSource (Env : Type) := {
  source_ok : Env -> Prop;
  source_renders : Env -> list HookState;
  source_nonempty e : source_renders e <> [];
  source_suspended e : Forall suspended_ok (removelast (source_renders e));
  source_terminates e s : source_ok e -> last (source_renders e) = Some s -> loading s = false;
  source_error_wf e : Forall error_wf (source_renders e)
}.

#[export] Program Instance Hook_source : PortfolioSource Net := {|
  source_ok := valid_net;
  source_renders := rendered_states
|}.
Next Obligation. intros net. unfold rendered_states. discriminate. Qed.
Next Obligation. intros net. rewrite (proj1 (rendered_states_split net)). apply snapshots_suspended. Qed.
Next Obligation.
  intros net s Hv Hs. rewrite (proj2 (rendered_states_split net)) in Hs. injection Hs as <-.
  by apply final_flags.
Qed.
Next Obligation. intros net. apply rendered_error_wf. Qed.

Lemma hook_holders_monotone_witness :
  chain holders_le (rendered_states scenarioD) /\
  Forall (fun s => holders_le s (react (usePortfolioData scenarioD))) (rendered_states scenarioD).
Proof. apply hook_holders_monotone. decide_valid. Defined.
