(* ===== verification/JsString.v ===== *)
(** * The JavaScript string builtins the source calls

    A JS string is a sequence of UTF-16 code units; here it is a Rocq
    [string] whose characters stand for code units, which is exact for
    the ASCII text the properties are about.  [toUpperCase] and [trim]
    are modelled on ASCII ([trim]'s white space: tab, line feed, vertical
    tab, form feed, carriage return, space); non-ASCII case mapping and
    Unicode white space are not modelled.  Indices are [Z], clamped as
    the ECMAScript algorithms clamp them. *)

From S2P Require Import Prelude.
From Stdlib Require Import Ascii String ZArith.

Local Open Scope string_scope.

Definition clamp (len : nat) (z : Z) : nat := Z.to_nat (Z.max 0 (Z.min z (Z.of_nat len))).

(** [s.substring(start, end)]: clamp both to [[0, length]], swap when
    [start > end]. *)
Definition js_substring (s : string) (start stop : Z) : string :=
  let len := String.length s in
  let a := clamp len start in
  let b := clamp len stop in
  String.substring (Nat.min a b) (Nat.max a b - Nat.min a b) s.

(** [s.charAt(i)]: the one-unit string at [i], or [""] out of range. *)
Definition js_charAt (s : string) (i : Z) : string :=
  if (0 <=? i)%Z && (i <? Z.of_nat (String.length s))%Z
  then match String.get (Z.to_nat i) s with
       | Some c => String c EmptyString
       | None => EmptyString
       end
  else EmptyString.

(** [s.split(sep)] for a one-unit separator: the pieces between
    separators, empty pieces included ([""] splits to [[""]]). *)
Fixpoint js_split (sep : ascii) (s : string) : list string :=
  match s with
  | EmptyString => [EmptyString]
  | String c s' =>
      let rest := js_split sep s' in
      if Ascii.eqb c sep then EmptyString :: rest
      else match rest with
           | r :: rs => String c r :: rs
           | [] => [String c EmptyString]
           end
  end.

(** [l.join(sep)]. *)
Fixpoint js_join (sep : string) (l : list string) : string :=
  match l with
  | [] => EmptyString
  | [x] => x
  | x :: l' => x ++ sep ++ js_join sep l'
  end.

Definition is_js_space (c : ascii) : bool :=
  match nat_of_ascii c with
  | 9 | 10 | 11 | 12 | 13 | 32 => true
  | _ => false
  end.

Fixpoint drop_space (l : list ascii) : list ascii :=
  match l with
  | c :: l' => if is_js_space c then drop_space l' else l
  | [] => []
  end.

(** [s.trim()]. *)
Definition js_trim (s : string) : string :=
  string_of_list_ascii (rev (drop_space (rev (drop_space (list_ascii_of_string s))))).

Definition ascii_upper (c : ascii) : ascii :=
  let n := nat_of_ascii c in
  if Nat.leb 97 n && Nat.leb n 122 then ascii_of_nat (n - 32) else c.

(** [s.toUpperCase()] on ASCII. *)
Definition js_toUpperCase (s : string) : string :=
  string_of_list_ascii (map ascii_upper (list_ascii_of_string s)).

(** ** Lemmas *)

Lemma js_split_not_nil sep s : js_split sep s <> [].
Proof.
  induction s as [|c s IH]; simpl; [done|].
  destruct (Ascii.eqb c sep); [done|]. by destruct (js_split sep s).
Qed.

(** Round trip: joining the pieces with the separator gives the string
    back. *)
Theorem js_join_split sep s : js_join (String sep EmptyString) (js_split sep s) = s.
Proof.
  induction s as [|c s IH]; simpl; [done|].
  pose proof (js_split_not_nil sep s) as Hne.
  destruct (Ascii.eqb_spec c sep) as [->|Hc].
  - destruct (js_split sep s) as [|r rs]; [done|]. simpl. by rewrite <- IH.
  - destruct (js_split sep s) as [|r [|r' rs]]; [done| |]; rewrite <- IH; reflexivity.
Qed.

Lemma js_split_no_sep sep s : Forall (fun p => ~ In sep (list_ascii_of_string p)) (js_split sep s).
Proof.
  induction s as [|c s IH]; simpl; [constructor; [simpl; tauto|constructor]|].
  pose proof (js_split_not_nil sep s) as Hne.
  destruct (Ascii.eqb_spec c sep) as [->|Hc]; [constructor; [simpl; tauto|done]|].
  destruct (js_split sep s) as [|r rs]; [done|].
  invc IH. constructor; [simpl; intuition|done].
Qed.

Lemma length_string_append s1 s2 :
  String.length (s1 ++ s2) = String.length s1 + String.length s2.
Proof. induction s1; simpl; auto. Qed.

Lemma length_substring_0 n s :
  String.length (String.substring 0 n s) = Nat.min n (String.length s).
Proof. revert n. induction s as [|c s IH]; intros [|n]; simpl; auto. Qed.

Lemma length_js_substring_0 s (n : Z) :
  String.length (js_substring s 0 n) = clamp (String.length s) n.
Proof.
  unfold js_substring, clamp. rewrite Z.min_l by lia. simpl Z.to_nat.
  rewrite Nat.min_0_l, Nat.max_0_l, Nat.sub_0_r.
  rewrite length_substring_0. lia.
Qed.

Definition no_sep (sep : ascii) (t : string) : Prop := ~ In sep (list_ascii_of_string t).

Lemma js_split_single sep t : no_sep sep t -> js_split sep t = [t].
Proof.
  unfold no_sep. induction t as [|c t IH]; intros Ht; simpl in *; [done|].
  destruct (Ascii.eqb_spec c sep) as [->|Hc]; [tauto|]. rewrite IH; [done|tauto].
Qed.

Lemma js_split_app_sep sep t s :
  no_sep sep t -> js_split sep (t ++ String sep EmptyString ++ s) = t :: js_split sep s.
Proof.
  unfold no_sep. induction t as [|c t IH]; intros Ht; simpl in *.
  - by rewrite Ascii.eqb_refl.
  - destruct (Ascii.eqb_spec c sep) as [->|Hc]; [tauto|]. rewrite IH; [done|tauto].
Qed.

(** Round trip in the other direction: pieces free of the separator come
    back from [split] after [join]. *)
Theorem js_split_join sep tags :
  tags <> [] -> Forall (no_sep sep) tags ->
  js_split sep (js_join (String sep EmptyString) tags) = tags.
Proof.
  intros Hne Hall. induction Hall as [|t tags Ht Hall IH]; [done|].
  destruct tags as [|t' tags]; simpl.
  - by apply js_split_single.
  - rewrite js_split_app_sep by done. f_equal. by apply IH.
Qed.

(** ** [trim] *)

Definition no_lead (l : list ascii) : Prop :=
  match l with c :: _ => is_js_space c = false | [] => True end.

Lemma drop_space_no_lead l : no_lead (drop_space l).
Proof. induction l as [|c l IH]; simpl; [done|]. destruct (is_js_space c) eqn:H; simpl; auto. Qed.

Lemma drop_space_id l : no_lead l -> drop_space l = l.
Proof. destruct l as [|c l]; simpl; [done|]. by intros ->. Qed.

Lemma drop_space_suffix l : exists p, l = (p ++ drop_space l)%list.
Proof.
  induction l as [|c l [p Hp]]; simpl; [by exists []|].
  destruct (is_js_space c); [exists (c :: p); simpl; by f_equal|by exists []].
Qed.

Lemma no_lead_rev_drop_rev l : no_lead l -> no_lead (rev (drop_space (rev l))).
Proof.
  intros Hl. destruct (drop_space_suffix (rev l)) as [p Hp].
  destruct (drop_space (rev l)) as [|d ds] eqn:Hd; [done|].
  apply (f_equal (@rev ascii)) in Hp. rewrite rev_involutive, rev_app_distr in Hp.
  rewrite Hp in Hl. simpl in *. destruct (rev ds) as [|x xs]; simpl in *; done.
Qed.

Lemma js_trim_list s :
  list_ascii_of_string (js_trim s) = rev (drop_space (rev (drop_space (list_ascii_of_string s)))).
Proof. unfold js_trim. apply list_ascii_of_string_of_list_ascii. Qed.

(** [trim] is idempotent. *)
Theorem js_trim_idem s : js_trim (js_trim s) = js_trim s.
Proof.
  unfold js_trim at 1. rewrite js_trim_list.
  set (L1 := drop_space (list_ascii_of_string s)).
  set (L2 := rev (drop_space (rev L1))).
  assert (H2 : no_lead L2) by apply no_lead_rev_drop_rev, drop_space_no_lead.
  rewrite (drop_space_id L2 H2). unfold L2. rewrite rev_involutive.
  rewrite (drop_space_id _ (drop_space_no_lead _)).
  unfold js_trim. fold L1. done.
Qed.

(** ** Strings as lists of code units *)

Lemma list_ascii_substring_0 n s :
  list_ascii_of_string (String.substring 0 n s) = firstn n (list_ascii_of_string s).
Proof. revert n. induction s as [|c s IH]; intros [|n]; simpl; f_equal; auto. Qed.

Lemma list_ascii_js_substring_0 s n :
  list_ascii_of_string (js_substring s 0 (Z.of_nat n)) = firstn n (list_ascii_of_string s).
Proof.
  unfold js_substring, clamp. rewrite Z.min_l by lia. simpl Z.to_nat.
  rewrite Nat.min_0_l, Nat.max_0_l, Nat.sub_0_r, list_ascii_substring_0.
  assert (Hlen : String.length s = List.length (list_ascii_of_string s)).
  { induction s; simpl; auto. }
  destruct (Nat.le_ge_cases n (String.length s)) as [Hle|Hge].
  - rewrite Z.min_l, Z.max_r by lia. by rewrite Nat2Z.id.
  - rewrite Z.min_r, Z.max_r by lia. rewrite Nat2Z.id, !firstn_all2 by lia. done.
Qed.

Lemma list_ascii_js_toUpperCase s :
  list_ascii_of_string (js_toUpperCase s) = map ascii_upper (list_ascii_of_string s).
Proof. apply list_ascii_of_string_of_list_ascii. Qed.

Lemma list_ascii_append s1 s2 :
  list_ascii_of_string (s1 ++ s2) = (list_ascii_of_string s1 ++ list_ascii_of_string s2)%list.
Proof. induction s1; simpl; f_equal; auto. Qed.

(** Joining with the empty separator concatenates the code units. *)
Lemma list_ascii_js_join_empty l :
  list_ascii_of_string (js_join "" l) = List.concat (map list_ascii_of_string l).
Proof.
  induction l as [|x l IH]; [done|]. destruct l as [|y l]; [simpl; by rewrite List.app_nil_r|].
  change (js_join "" (x :: y :: l)) with (x ++ js_join "" (y :: l)).
  rewrite list_ascii_append, IH. reflexivity.
Qed.

(** [w.charAt(0)]: the first code unit, or [""] for the empty string. *)
Lemma list_ascii_js_charAt_0 w :
  list_ascii_of_string (js_charAt w 0) = option_list (head (list_ascii_of_string w)).
Proof. destruct w; reflexivity. Qed.

(** [s.split(sep)] has one piece more than [s] has separators. *)
Lemma length_js_split sep s :
  List.length (js_split sep s) = S (count_occ ascii_dec (list_ascii_of_string s) sep).
Proof.
  induction s as [|c s IH]; [done|]. cbn [js_split list_ascii_of_string].
  pose proof (js_split_not_nil sep s) as Hne.
  destruct (Ascii.eqb_spec c sep) as [->|Hc].
  - rewrite count_occ_cons_eq by done. cbn [List.length]. by rewrite IH.
  - rewrite count_occ_cons_neq by done. rewrite <- IH. by destruct (js_split sep s).
Qed.
