(* ===== verification/Helpers.v ===== *)
(** * Utility functions: [src/frontend/src/utils/helpers.ts]

    [formatDate] and [isValidUrl] call host objects ([Date] and its
    locale formatting, the [URL] parser); they are Section variables:
    [toLocaleDateString d] is [Some text] or [None] when the host throws,
    [url_parses u] says whether [new URL(u)] succeeds.  The other three
    helpers are pure and modelled in full. *)

From S2P Require Import Prelude JsString.
From Stdlib Require Import Ascii String ZArith QArith Lqa.

Local Open Scope nat_scope.
Local Open Scope string_scope.

Section Helpers.
Variable toLocaleDateString : string -> option string.
Variable url_parses : string -> bool.

(** [formatDate(dateString)] *)
Definition formatDate (dateString : option string) : string :=
  match dateString with
  | Some d => if truthy d then match toLocaleDateString d with
                               | Some text => text
                               | None => d
                               end
              else "Present"
  | None => "Present"
  end.

(** [isValidUrl(url)] *)
Definition isValidUrl (url : option string) : bool :=
  match url with
  | Some u => if truthy u then url_parses u else false
  | None => false
  end.
End Helpers.

(** [getProficiencyColor(proficiency)] *)
Definition getProficiencyColor (proficiency : Q) : string :=
  if Qle_bool 80 proficiency then "bg-green-500"
  else if Qle_bool 60 proficiency then "bg-blue-500"
  else "bg-yellow-500".

(** [truncateText(text, maxLength)] *)
Definition truncateText (text : string) (maxLength : Z) : string :=
  if (Z.of_nat (String.length text) <=? maxLength)%Z then text
  else js_substring text 0 maxLength ++ "...".

(** [getInitials(fullName)] *)
Definition getInitials (fullName : string) : string :=
  js_substring
    (js_toUpperCase (js_join "" (map (fun name => js_charAt name 0) (js_split " "%char fullName))))
    0 2.

(** ** Properties *)

(** C11. [truncateText] returns its input when it fits, and otherwise
    the first [maxLength] characters followed by ["..."]: the result is
    [maxLength + 3] characters long, three more than the "specified
    length" of its comment. *)
Theorem truncateText_length (text : string) (maxLength : Z) :
  (0 <= maxLength)%Z ->
  String.length (truncateText text maxLength) =
    if (Z.of_nat (String.length text) <=? maxLength)%Z then String.length text
    else Z.to_nat maxLength + 3.
Proof.
  intros Hm. unfold truncateText. destruct (Z.leb_spec (Z.of_nat (String.length text)) maxLength);
    [done|].
  rewrite length_string_append, length_js_substring_0. unfold clamp. simpl. lia.
Qed.

Lemma truncateText_length_witness :
  String.length (truncateText "hello world" 5) = 8.
Proof. rewrite truncateText_length by lia. reflexivity. Defined.

(** The first code unit of each non-empty space-separated word. *)
Definition word_initials (fullName : string) : list ascii :=
  omap (fun w => head (list_ascii_of_string w)) (js_split " "%char fullName).

(** C31. [getInitials] is the upper-cased first letters of the first two
    non-empty words: empty pieces of the split (leading, trailing or
    repeated spaces) contribute nothing, and a one-word name gives one
    letter. *)
Theorem getInitials_first_letters (fullName : string) :
  getInitials fullName = string_of_list_ascii (map ascii_upper (firstn 2 (word_initials fullName))).
Proof.
  rewrite <- (string_of_list_ascii_of_string (getInitials fullName)). f_equal.
  unfold getInitials. change 2%Z with (Z.of_nat 2).
  rewrite list_ascii_js_substring_0, list_ascii_js_toUpperCase, list_ascii_js_join_empty, map_map.
  rewrite (map_ext _ _ list_ascii_js_charAt_0), concat_option_list.
  apply firstn_map.
Qed.

Example getInitials_spaces : getInitials " ada  lovelace byron" = "AL".
Proof. reflexivity. Qed.

(** The colour classes in increasing order of proficiency. *)
Definition proficiency_rank (color : string) : nat :=
  if String.eqb color "bg-green-500" then 2
  else if String.eqb color "bg-blue-500" then 1 else 0.

(** The colour rank does not decrease with the proficiency. *)
Lemma proficiency_rank_monotone (p q : Q) :
  (p <= q)%Q -> proficiency_rank (getProficiencyColor p) <= proficiency_rank (getProficiencyColor q).
Proof.
  intros Hpq. unfold getProficiencyColor.
  destruct (Qle_bool 80 p) eqn:H80p, (Qle_bool 80 q) eqn:H80q,
           (Qle_bool 60 p) eqn:H60p, (Qle_bool 60 q) eqn:H60q;
  repeat match goal with
         | H : Qle_bool _ _ = true |- _ => apply Qle_bool_iff in H
         | H : Qle_bool _ _ = false |- _ =>
             apply not_true_iff_false in H; rewrite Qle_bool_iff in H; apply Qnot_le_lt in H
         end; try lra; vm_compute; lia.
Qed.

(** The colour classes and their exact thresholds. *)
Lemma getProficiencyColor_thresholds (p : Q) :
  (getProficiencyColor p = "bg-green-500" <-> (80 <= p)%Q) /\
  (getProficiencyColor p = "bg-blue-500" <-> (60 <= p /\ p < 80)%Q).
Proof.
  unfold getProficiencyColor.
  destruct (Qle_bool 80 p) eqn:H80, (Qle_bool 60 p) eqn:H60;
  repeat match goal with
         | H : Qle_bool _ _ = true |- _ => apply Qle_bool_iff in H
         | H : Qle_bool _ _ = false |- _ =>
             apply not_true_iff_false in H; rewrite Qle_bool_iff in H; apply Qnot_le_lt in H
         end;
  split; split; intros Hc; try discriminate; try done; try lra; destruct Hc; lra.
Qed.

(** C13. The proficiency colour is monotone: a higher proficiency never
    gets a lower colour class; and the thresholds are exactly 80 and 60,
    both inclusive: green from 80 on, blue from 60 to below 80. *)
Theorem getProficiencyColor_monotone (p q : Q) :
  (p <= q)%Q ->
  proficiency_rank (getProficiencyColor p) <= proficiency_rank (getProficiencyColor q) /\
  (getProficiencyColor p = "bg-green-500" <-> (80 <= p)%Q) /\
  (getProficiencyColor p = "bg-blue-500" <-> (60 <= p /\ p < 80)%Q).
Proof.
  intros Hpq. split; [by apply proficiency_rank_monotone|]. apply getProficiencyColor_thresholds.
Qed.

Lemma getProficiencyColor_monotone_witness :
  proficiency_rank (getProficiencyColor 59) <= proficiency_rank (getProficiencyColor 60) /\
  (getProficiencyColor 59 = "bg-green-500" <-> (80 <= 59)%Q) /\
  (getProficiencyColor 59 = "bg-blue-500" <-> (60 <= 59 /\ 59 < 80)%Q).
Proof. apply getProficiencyColor_monotone. vm_compute. discriminate. Defined.
