(* ===== verification/Skills.v ===== *)
(** * The skills section: [src/frontend/src/components/sections/Skills.tsx]

    [categories] is [Array.from(new Set(skills.map(s => s.category)))]:
    a JS [Set] iterates in insertion order, so it is the list of
    categories in order of first occurrence, without repeats.  Each
    category renders the skills whose category is [===] to it
    ([categorySkills]), each skill as a card with its colour class from
    the component's own [getSkillColor]. *)

From S2P Require Import Prelude Types Helpers.
From Stdlib Require Import ZArith QArith.

(** ** [new Set(iterable)] and [Array.from] *)

Section JsSet.
Context {A : Type} `{EqDecision A}.

Definition js_Set_add (s : list A) (x : A) : list A :=
  if decide (x ∈ s) then s else s ++ [x].

Definition js_Set_from (l : list A) : list A := fold_left js_Set_add l [].

Lemma js_Set_add_fold_NoDup (l acc : list A) : NoDup acc -> NoDup (fold_left js_Set_add l acc).
Proof.
  revert acc. induction l as [|x l IH]; intros acc Hacc; simpl; [done|].
  apply IH. unfold js_Set_add. case_decide; [done|].
  apply NoDup_app. split_and!; [done| |by apply NoDup_singleton]. set_solver.
Qed.

Lemma elem_of_js_Set_add_fold (l acc : list A) x :
  x ∈ fold_left js_Set_add l acc <-> x ∈ acc \/ x ∈ l.
Proof.
  revert acc. induction l as [|y l IH]; intros acc; simpl; [set_solver|].
  rewrite IH. unfold js_Set_add. case_decide; set_solver.
Qed.

Lemma js_Set_from_NoDup (l : list A) : NoDup (js_Set_from l).
Proof. apply js_Set_add_fold_NoDup, NoDup_nil_2. Qed.

Lemma elem_of_js_Set_from (l : list A) x : x ∈ js_Set_from l <-> x ∈ l.
Proof. unfold js_Set_from. rewrite elem_of_js_Set_add_fold. set_solver. Qed.

(** The first occurrence of each element, in order: each element is kept
    and its later copies are filtered out. *)
Fixpoint dedup (l : list A) : list A :=
  match l with
  | [] => []
  | x :: l' => x :: List.filter (fun y => bool_decide (y <> x)) (dedup l')
  end.

Lemma js_Set_add_fold_dedup (l acc : list A) :
  fold_left js_Set_add l acc = acc ++ List.filter (fun y => bool_decide (y ∉ acc)) (dedup l).
Proof.
  revert acc. induction l as [|x l IH]; intros acc; simpl; [by rewrite app_nil_r|].
  rewrite IH, filter_filter_andb. unfold js_Set_add. case_decide as Hx.
  - rewrite bool_decide_false by tauto. f_equal. apply filter_ext_in. intros y _.
    repeat case_bool_decide; set_solver.
  - rewrite bool_decide_true by done. rewrite <- app_assoc. simpl. do 2 f_equal.
    apply filter_ext_in. intros y _. repeat case_bool_decide; set_solver.
Qed.

(** [Array.from(new Set(l))] iterates in insertion order: the first
    occurrences of [l]'s elements, in order. *)
Lemma js_Set_from_dedup (l : list A) : js_Set_from l = dedup l.
Proof.
  unfold js_Set_from. rewrite js_Set_add_fold_dedup. simpl.
  by apply filter_id_forall.
Qed.
End JsSet.

(** ** Grouping by a key *)

Section GroupBy.
Context {A K : Type} `{EqDecision K} (key : A -> K).

Definition group (l : list A) (k : K) : list A := List.filter (fun x => bool_decide (key x = k)) l.

(** Grouping over a duplicate-free list of keys that covers every
    element is a permutation of the elements. *)
Lemma group_concat_perm (ks : list K) (l : list A) :
  NoDup ks -> (forall x, x ∈ l -> key x ∈ ks) ->
  concat (map (group l) ks) ≡ₚ l.
Proof.
  revert l. induction ks as [|k ks IH]; intros l Hnd Hcov; simpl.
  - destruct l as [|x l]; [done|]. destruct (not_elem_of_nil (key x)). apply Hcov. set_solver.
  - apply NoDup_cons in Hnd as [Hk Hnd].
    etransitivity; [|exact (filter_partition_perm (fun x => bool_decide (key x = k)) l)].
    apply Permutation_app_head.
    set (l' := List.filter (fun x => negb (bool_decide (key x = k))) l).
    assert (Hgroups : map (group l) ks = map (group l') ks).
    { apply map_ext_in. intros k' Hk'. unfold group, l'. rewrite filter_filter_andb.
      apply filter_ext_in. intros x _. apply list_elem_of_In in Hk'.
      destruct (decide (key x = k')) as [->|Hne].
      - rewrite (bool_decide_true (k' = k')), (bool_decide_false (k' = k)) by set_solver.
        done.
      - rewrite (bool_decide_false (key x = k')) by done. by rewrite andb_false_r. }
    rewrite Hgroups. apply IH; [done|].
    intros x Hx. unfold l' in Hx. apply list_elem_of_In, filter_In in Hx as [Hx Hne].
    apply list_elem_of_In in Hx. apply Hcov in Hx. apply elem_of_cons in Hx as [Heq|]; [|done].
    by rewrite Heq, bool_decide_true in Hne.
Qed.
End GroupBy.

(** ** The component *)

(** [interface SkillsProps] (lines 4-6). *)
Module SkillsProps.
Record t := mk { skills : list Skill.t }.
End SkillsProps.

Definition categories (skills : list Skill.t) : list string :=
  js_Set_from (map Skill.category skills).

Definition categorySkills (skills : list Skill.t) (category : string) : list Skill.t :=
  List.filter (fun skill => String.eqb (Skill.category skill) category) skills.

(** The component's local copy of the colour thresholds. *)
Definition getSkillColor (proficiency : Q) : string :=
  if Qle_bool 80 proficiency then "bg-green-500"%string
  else if Qle_bool 60 proficiency then "bg-blue-500"%string
  else "bg-yellow-500"%string.

Record SkillCard := mkSkillCard {
  card_key : Z;
  card_icon : option string;        (** [<img>] only when [iconUrl] is truthy *)
  card_name : string;
  card_proficiency : Q;             (** the [%] label and the bar width *)
  card_color : string;
  card_description : option string
}.

Definition skill_card (skill : Skill.t) : SkillCard :=
  mkSkillCard (Skill.id skill)
    (if truthy (Skill.iconUrl skill) then Skill.iconUrl skill else None)
    (Skill.name skill) (Skill.proficiency skill) (getSkillColor (Skill.proficiency skill))
    (if truthy (Skill.description skill) then Skill.description skill else None).

(** The rendered section: one block per category, in [categories]
    order, with the cards of its skills. *)
Definition Skills (props : SkillsProps.t) : list (string * list SkillCard) :=
  let skills := SkillsProps.skills props in
  map (fun category => (category, map skill_card (categorySkills skills category)))
      (categories skills).

(** ** Properties *)

Lemma Skills_props (skills : list Skill.t) :
  Skills (SkillsProps.mk skills) =
  map (fun category => (category, map skill_card (categorySkills skills category))) (categories skills).
Proof. reflexivity. Qed.

Lemma categorySkills_group skills category :
  categorySkills skills category = group Skill.category skills category.
Proof.
  unfold categorySkills, group. apply filter_ext_in. intros skill _.
  destruct (String.eqb_spec (Skill.category skill) category); by case_bool_decide.
Qed.

Lemma categories_cover skills skill :
  skill ∈ skills -> Skill.category skill ∈ categories skills.
Proof. intros Hs. unfold categories. rewrite elem_of_js_Set_from. by apply list_elem_of_fmap_2. Qed.

(** The block headings are the categories. *)
Lemma Skills_heads (skills : list Skill.t) : map fst (Skills (SkillsProps.mk skills)) = categories skills.
Proof. rewrite Skills_props. by rewrite map_map, map_id. Qed.

(** The card keys of a block are the identities of its skills. *)
Lemma Skills_card_keys (skills : list Skill.t) :
  ids_unique Skill.id skills ->
  Forall (fun b => NoDup (map card_key (snd b))) (Skills (SkillsProps.mk skills)).
Proof.
  intros Hids. apply Forall_forall. intros [c cards] Hb.
  rewrite Skills_props in Hb. apply list_elem_of_In, in_map_iff in Hb as (c' & [= <- <-] & _).
  simpl. rewrite map_map. simpl. by apply NoDup_map_filter.
Qed.

(** C14. The section shows every skill exactly once: the cards of all
    category blocks, put together, are a permutation of the cards of the
    input list (nothing dropped, nothing duplicated). *)
Theorem Skills_partition (skills : list Skill.t) :
  List.concat (map snd (Skills (SkillsProps.mk skills))) ≡ₚ map skill_card skills.
Proof.
  rewrite Skills_props, map_map. simpl.
  rewrite <- (map_ext (fun c => map skill_card (group Skill.category skills c)))
    by (intros c; by rewrite categorySkills_group).
  rewrite <- map_map, <- concat_map. apply Permutation_map.
  apply group_concat_perm; [apply js_Set_from_NoDup|]. intros x Hx. by apply categories_cover.
Qed.

(** C15. The category blocks have distinct keys ([key={category}]) and
    none is empty: every heading has at least one skill under it, all of
    that category. *)
Theorem Skills_blocks (skills : list Skill.t) :
  NoDup (map fst (Skills (SkillsProps.mk skills))) /\
  Forall (fun b => snd b <> [] /\ Forall (fun skill => Skill.category skill = fst b)
                                    (categorySkills skills (fst b))) (Skills (SkillsProps.mk skills)).
Proof.
  rewrite Skills_heads. split; [apply js_Set_from_NoDup|]. rewrite Skills_props.
  apply Forall_forall. intros [c cards] Hb. apply list_elem_of_In, in_map_iff in Hb as (c' & [= <- <-] & Hc).
  simpl. split.
  - apply list_elem_of_In in Hc. unfold categories in Hc.
    rewrite elem_of_js_Set_from in Hc. apply list_elem_of_fmap in Hc as (skill & -> & Hs).
    intros Hnil. apply map_eq_nil in Hnil.
    assert (Hin : In skill (categorySkills skills (Skill.category skill))).
    { apply filter_In. split; [by apply list_elem_of_In|apply String.eqb_refl]. }
    by rewrite Hnil in Hin.
  - apply Forall_forall. intros skill Hs. apply list_elem_of_In, filter_In in Hs as [_ Heq].
    by apply String.eqb_eq.
Qed.

(** C16. React keys: when the skills' identities are unique, so are the
    card keys inside every category block. *)
Theorem Skills_keys_unique (skills : list Skill.t) :
  ids_unique Skill.id skills ->
  Forall (fun b => NoDup (map card_key (snd b))) (Skills (SkillsProps.mk skills)).
Proof. apply Skills_card_keys. Qed.

(** Every card of the section is the card of a skill. *)
Lemma Skills_cards (skills : list Skill.t) b c :
  b ∈ Skills (SkillsProps.mk skills) -> c ∈ b.2 -> exists skill, c = skill_card skill.
Proof.
  intros Hb Hc. rewrite Skills_props in Hb. apply list_elem_of_In, in_map_iff in Hb as (cat & <- & _).
  apply list_elem_of_In, in_map_iff in Hc as (skill & <- & _). by exists skill.
Qed.

(** C38. The colours of the rendered skill cards: the component's local
    copy of the thresholds gives every card the colour class
    [getProficiencyColor] of [utils/helpers.ts] gives its proficiency, so
    across all blocks a card with a higher proficiency never has a lower
    colour class. *)
Theorem skill_card_colors (skills : list Skill.t) :
  (forall b c, b ∈ Skills (SkillsProps.mk skills) -> c ∈ b.2 -> card_color c = getProficiencyColor (card_proficiency c)) /\
  (forall b1 b2 c1 c2, b1 ∈ Skills (SkillsProps.mk skills) -> b2 ∈ Skills (SkillsProps.mk skills) -> c1 ∈ b1.2 -> c2 ∈ b2.2 ->
     (card_proficiency c1 <= card_proficiency c2)%Q ->
     (proficiency_rank (card_color c1) <= proficiency_rank (card_color c2))%nat).
Proof.
  assert (Hcol : forall b c, b ∈ Skills (SkillsProps.mk skills) -> c ∈ b.2 ->
            card_color c = getProficiencyColor (card_proficiency c)).
  { intros b c Hb Hc. by destruct (Skills_cards skills b c Hb Hc) as [skill ->]. }
  split; [done|]. intros b1 b2 c1 c2 Hb1 Hb2 Hc1 Hc2 Hle.
  rewrite (Hcol b1 c1), (Hcol b2 c2) by done. by apply proficiency_rank_monotone.
Qed.

(** C33. The category blocks come in order of first appearance in the
    skills array: [Array.from(new Set(...))] keeps insertion order, so the
    first skill of each category fixes where its block is shown. *)
Theorem Skills_category_order (skills : list Skill.t) :
  map fst (Skills (SkillsProps.mk skills)) = dedup (map Skill.category skills).
Proof. rewrite Skills_heads. apply js_Set_from_dedup. Qed.

Definition skills_sample : list Skill.t :=
  [Skill.mk 1 "Rocq" "Verification" None (QArith_base.Qmake 90 1) None;
   Skill.mk 2 "TypeScript" "Languages" None (QArith_base.Qmake 70 1) None;
   Skill.mk 3 "Lean" "Verification" None (QArith_base.Qmake 50 1) None].

Lemma Skills_keys_unique_witness :
  Forall (fun b => NoDup (map card_key (snd b))) (Skills (SkillsProps.mk skills_sample)) /\
  map fst (Skills (SkillsProps.mk skills_sample)) = ["Verification"; "Languages"]%string.
Proof.
  split; [|reflexivity].
  apply Skills_keys_unique. unfold ids_unique. apply (bool_decide_unpack _). vm_compute. reflexivity.
Defined.
