(* ===== verification/Projects.v ===== *)
(** * The projects section: [src/frontend/src/components/sections/Projects.tsx]

    The list is split by the truthiness of the optional [featured] flag
    into [featuredProjects] and [otherProjects] (lines 19-20); each part
    is rendered only when non-empty.  Featured cards show the technology
    tags, [technologies.split(',').map(tech => tech.trim())] (line 47);
    the other cards do not. *)

From S2P Require Import Prelude Types JsString.
From Stdlib Require Import Ascii ZArith.

Definition featuredProjects (projects : list Project.t) : list Project.t :=
  List.filter (fun p => truthy (Project.featured p)) projects.

Definition otherProjects (projects : list Project.t) : list Project.t :=
  List.filter (fun p => negb (truthy (Project.featured p))) projects.

(** [{project.technologies && ( ... split(',').map(trim) ... )}] *)
Definition technology_tags (technologies : option string) : list string :=
  match technologies with
  | Some t => if truthy t then map js_trim (js_split ","%char t) else []
  | None => []
  end.

Record ProjectCard := mkProjectCard {
  pc_key : Z;
  pc_image : option string;
  pc_name : string;
  pc_description : string;
  pc_tags : list string;
  pc_github : option string;
  pc_live : option string
}.

Definition shown (o : option string) : option string := if truthy o then o else None.

(** Lines 31-80. *)
Definition featured_card (project : Project.t) : ProjectCard :=
  mkProjectCard (Project.id project) (shown (Project.imageUrl project)) (Project.name project)
    (Project.description project) (technology_tags (Project.technologies project))
    (shown (Project.githubUrl project)) (shown (Project.liveUrl project)).

(** Lines 91-128: no technology tags on these cards. *)
Definition other_card (project : Project.t) : ProjectCard :=
  mkProjectCard (Project.id project) (shown (Project.imageUrl project)) (Project.name project)
    (Project.description project) []
    (shown (Project.githubUrl project)) (shown (Project.liveUrl project)).

Record ProjectsView := mkProjectsView {
  featured_block : option (list ProjectCard);
  other_block : option (list ProjectCard)
}.

(** [interface ProjectsProps] (lines 4-6). *)
Module ProjectsProps.
Record t := mk { projects : list Project.t }.
End ProjectsProps.

Definition Projects (props : ProjectsProps.t) : ProjectsView :=
  let projects := ProjectsProps.projects props in
  let featured := featuredProjects projects in
  let other := otherProjects projects in
  mkProjectsView
    (if 0 <? length featured then Some (map featured_card featured) else None)
    (if 0 <? length other then Some (map other_card other) else None).

(** ** Properties *)

(** C17. The two blocks partition the projects: together they are a
    permutation of the input, and a project is featured exactly when its
    flag is truthy, so each project is shown once. *)
Theorem Projects_partition (projects : list Project.t) :
  featuredProjects projects ++ otherProjects projects ≡ₚ projects /\
  (forall p, In p (featuredProjects projects) <-> In p projects /\ truthy (Project.featured p) = true) /\
  (forall p, In p (otherProjects projects) <-> In p projects /\ truthy (Project.featured p) = false).
Proof.
  split_and!; [apply filter_partition_perm| |]; intros p;
    unfold featuredProjects, otherProjects; rewrite filter_In; [done|].
  by rewrite negb_true_iff.
Qed.

(** C18. Every rendered technology tag is trimmed, and a technologies
    string written as comma-separated trimmed names comes back as exactly
    those names. *)
Theorem technology_tags_roundtrip (tags : list string) :
  (forall t technologies, In t (technology_tags technologies) -> js_trim t = t) /\
  (tags <> [] -> Forall (fun t => no_sep ","%char t /\ js_trim t = t) tags ->
   js_join ","%string tags <> EmptyString ->
   technology_tags (Some (js_join ","%string tags)) = tags).
Proof.
  split.
  - intros t [t0|] Hin; simpl in Hin; [|done].
    destruct (truthy t0); [|done]. apply in_map_iff in Hin as (x & <- & _). apply js_trim_idem.
  - intros Hne Hall Hnonempty. simpl.
    assert (Ht : truthy (js_join "," tags) = true).
    { unfold truthy, truthy_string. destruct (js_join "," tags); [done|reflexivity]. }
    rewrite Ht, js_split_join; [|done|by eapply Forall_impl; [exact Hall|]; intros ? []].
    clear -Hall. induction Hall as [|t tags [_ Htrim] Hall IH]; simpl; [done|].
    by rewrite Htrim, IH.
Qed.

(** C36. Boundaries of the tag list: a missing or empty technologies
    string renders no tag, and otherwise there is one tag per comma plus
    one, empty pieces included, so a trailing or doubled comma renders an
    empty tag. *)
Theorem technology_tags_count (technologies : option string) :
  List.length (technology_tags technologies) =
    if truthy technologies
    then S (count_occ ascii_dec (String.list_ascii_of_string (default ""%string technologies)) ","%char)
    else 0.
Proof.
  destruct technologies as [t|]; [|done]. cbn [technology_tags default].
  change (truthy (Some t)) with (truthy t). case_if; [|done].
  by rewrite length_map, length_js_split.
Qed.

Example technology_tags_trailing_comma :
  technology_tags (Some "Rocq, Lean,"%string) = ["Rocq"; "Lean"; ""]%string.
Proof. reflexivity. Qed.

Lemma technology_tags_roundtrip_witness :
  technology_tags (Some (js_join ","%string ["React"; "TypeScript"]%string)) = ["React"; "TypeScript"]%string.
Proof.
  apply (proj2 (technology_tags_roundtrip ["React"; "TypeScript"]%string)); [discriminate| |discriminate].
  repeat constructor; try reflexivity; unfold no_sep; simpl; intuition discriminate.
Defined.

(** Scenario D of spec.md, section 8: two projects, one featured; each
    block shows exactly one card, with the project's fields unchanged. *)
Example Projects_scenarioD :
  let p1 := Project.mk 1 "Portfolio" "This site" None None None (Some "React, Vite") None (Some true) in
  let p2 := Project.mk 2 "Notes" "A notebook" None None None None None None in
  Projects (ProjectsProps.mk [p1; p2]) =
    mkProjectsView
      (Some [mkProjectCard 1 None "Portfolio" "This site" ["React"; "Vite"] None None])
      (Some [mkProjectCard 2 None "Notes" "A notebook" [] None None]).
Proof. vm_compute. reflexivity. Qed.
