(* ===== verification/Sections.v ===== *)
(** * The remaining sections: [Experience.tsx], [Hobbies.tsx], [About.tsx]
    under [src/frontend/src/components/sections/]

    Each section is a function from its props to a record of what it
    shows: which optional parts are rendered (an optional field is shown
    when truthy), the texts built from the fields, and for the
    experience timeline the connector drawn below every card but the
    last.  The locale formatting of dates ([new Date(d)
    .toLocaleDateString(...)]) is a Section variable. *)

From S2P Require Import Prelude Types JsString Helpers Projects.
From Stdlib Require Import Ascii ZArith.

Local Open Scope string_scope.

(** ** [Experience.tsx] *)

(** [interface ExperienceProps] (lines 4-6). *)
Module ExperienceProps.
Record t := mk { experiences : list Experience.t }.
End ExperienceProps.

Section ExperienceSection.
Variable toLocaleDateString : string -> string.

(** The component's local [formatDate] (lines 19-23): [''] for a
    missing or empty date. *)
Definition formatDate_local (dateString : option string) : string :=
  match dateString with
  | Some d => if truthy d then toLocaleDateString d else ""
  | None => ""
  end.

(** Line 56: [{formatDate(start)} - {current ? 'Present' : formatDate(end)}] *)
Definition date_range (exp : Experience.t) : string :=
  formatDate_local (Experience.startDate exp) ++ " - " ++
  (if truthy (Experience.current exp) then "Present" else formatDate_local (Experience.endDate exp)).

Inductive Logo := LogoImage (src : string) | LogoInitial (initial : string).

Record ExperienceCard := mkExperienceCard {
  ec_key : Z;
  ec_connector : bool;
  ec_logo : Logo;
  ec_title : string;
  ec_company : string;
  ec_location : option string;
  ec_dates : string;
  ec_description : option string
}.

Definition experience_card (experiences : list Experience.t) (index : nat) (exp : Experience.t)
  : ExperienceCard :=
  mkExperienceCard (Experience.id exp)
    (negb (Nat.eqb index (length experiences - 1)))
    (match Experience.companyLogoUrl exp with
     | Some u => if truthy u then LogoImage u else LogoInitial (js_charAt (Experience.company exp) 0)
     | None => LogoInitial (js_charAt (Experience.company exp) 0)
     end)
    (Experience.title exp) (Experience.company exp)
    (shown (Experience.location exp)) (date_range exp) (shown (Experience.description exp)).

Definition ExperienceSection (props : ExperienceProps.t) : list ExperienceCard :=
  let experiences := ExperienceProps.experiences props in
  imap (experience_card experiences) experiences.
End ExperienceSection.

(** ** [Hobbies.tsx] *)

Record HobbyCard := mkHobbyCard {
  hc_key : Z;
  hc_icon : string;
  hc_name : string;
  hc_description : string;
  hc_image : option string
}.

(** Line 27: [{hobby.iconUrl || '🎨'}] *)
Definition hobby_icon (hobby : Hobby.t) : string := js_or (Hobby.iconUrl hobby) "🎨".

Definition hobby_card (hobby : Hobby.t) : HobbyCard :=
  mkHobbyCard (Hobby.id hobby) (hobby_icon hobby) (Hobby.name hobby) (Hobby.description hobby)
    (shown (Hobby.imageUrl hobby)).

(** [interface HobbiesProps] (lines 4-6). *)
Module HobbiesProps.
Record t := mk { hobbies : list Hobby.t }.
End HobbiesProps.

Definition HobbiesSection (props : HobbiesProps.t) : list HobbyCard :=
  let hobbies := HobbiesProps.hobbies props in
  map hobby_card hobbies.

(** ** [About.tsx] *)

Inductive AboutView :=
| AboutPlaceholder
| AboutProfile (image : option string) (fullName title bio : string)
    (links : list (string * string)) (location : option string).

(** Lines 44-83: the contact buttons, each when its field is truthy, as
    (label, href). *)
Definition about_links (profile : Profile.t) : list (string * string) :=
  (if truthy (Profile.email profile)
   then [("Email", "mailto:" ++ default "" (Profile.email profile))] else []) ++
  (if truthy (Profile.linkedinUrl profile)
   then [("LinkedIn", default "" (Profile.linkedinUrl profile))] else []) ++
  (if truthy (Profile.githubUrl profile)
   then [("GitHub", default "" (Profile.githubUrl profile))] else []) ++
  (if truthy (Profile.websiteUrl profile)
   then [("Website", default "" (Profile.websiteUrl profile))] else []).

(** [interface AboutProps] (lines 4-6). *)
Module AboutProps.
Record t := mk { profile : option Profile.t }.
End AboutProps.

Definition About (props : AboutProps.t) : AboutView :=
  let profile := AboutProps.profile props in
  match profile with
  | None => AboutPlaceholder
  | Some p => AboutProfile (shown (Profile.profileImageUrl p)) (Profile.fullName p)
                (Profile.title p) (Profile.bio p) (about_links p) (shown (Profile.location p))
  end.

(** ** Properties *)

Lemma ExperienceSection_props toLocale (experiences : list Experience.t) :
  ExperienceSection toLocale (ExperienceProps.mk experiences) =
  imap (experience_card toLocale experiences) experiences.
Proof. reflexivity. Qed.

Lemma HobbiesSection_props (hobbies : list Hobby.t) :
  HobbiesSection (HobbiesProps.mk hobbies) = map hobby_card hobbies.
Proof. reflexivity. Qed.

Lemma map_imap {A B C} (f : B -> C) (g : nat -> A -> B) (l : list A) :
  map f (imap g l) = imap (fun i x => f (g i x)) l.
Proof. revert g. induction l as [|x l IH]; intros g; simpl; [done|]. f_equal. apply IH. Qed.

Lemma imap_const_seq {A B} (h : nat -> B) (l : list A) :
  imap (fun i _ => h i) l = map h (seq 0 (length l)).
Proof.
  revert h. induction l as [|x l IH]; intros h; simpl; [done|].
  f_equal. rewrite <- seq_shift, map_map. exact (IH (fun i => h (S i))).
Qed.

(** C35. The component's local [formatDate] against the one of
    [utils/helpers.ts], with the same locale formatter (which does not
    throw): they agree on every present, non-empty date, and differ on a
    missing or empty one, where the local copy gives [''] and the helper
    ["Present"]. *)
Theorem formatDate_local_agrees (fmt : string -> string) :
  (forall d : option string,
     formatDate_local fmt d = if truthy d then formatDate (fun x => Some (fmt x)) d else "") /\
  (forall d : option string, truthy d = false -> formatDate (fun x => Some (fmt x)) d = "Present").
Proof.
  split.
  - intros [d|]; cbn; [by repeat case_if|done].
  - intros [d|] Hd; cbn in *; [by rewrite Hd|done].
Qed.

(** C19. For a current position the end date is disregarded: the date
    line is the formatted start date followed by [" - Present"], whatever
    [endDate] holds (spec.md, section 3). *)
Theorem date_range_current toLocale (exp : Experience.t) :
  truthy (Experience.current exp) = true ->
  date_range toLocale exp = formatDate_local toLocale (Experience.startDate exp) ++ " - Present".
Proof. intros Hc. unfold date_range. by rewrite Hc. Qed.

Lemma date_range_current_witness :
  date_range (fun d => d) (Experience.mk 1 "Engineer" "Acme" None (Some "2021-03") (Some "2022-01")
                             (Some true) None None) = "2021-03 - Present".
Proof. rewrite date_range_current; reflexivity. Defined.

(** C20. The timeline draws a connector under every card but the last:
    the connector flags of the [n] cards are [n - 1] times [true]
    followed by one [false]. *)
Theorem ExperienceSection_connectors toLocale (experiences : list Experience.t) :
  experiences <> [] ->
  map ec_connector (ExperienceSection toLocale (ExperienceProps.mk experiences))
  = (repeat true (length experiences - 1) ++ [false])%list.
Proof.
  intros Hne. rewrite ExperienceSection_props.
  rewrite map_imap, (imap_const_seq (fun i => negb (Nat.eqb i (length experiences - 1)))).
  destruct experiences as [|e es]; [done|]. cbn [length]. replace (S (length es) - 1) with (length es) by lia. rewrite seq_S, map_app.
  simpl. rewrite Nat.eqb_refl. f_equal.
  rewrite (map_ext_in _ (fun _ => true)), map_const, length_seq; [done|].
  intros i Hi. apply in_seq in Hi. destruct (Nat.eqb_spec i (length es)); [lia|done].
Qed.

Lemma ExperienceSection_connectors_witness :
  map ec_connector (ExperienceSection (fun d => d) (ExperienceProps.mk
    [Experience.mk 1 "A" "X" None None None None None None;
     Experience.mk 2 "B" "Y" None None None None None None;
     Experience.mk 3 "C" "Z" None None None None None None])) = [true; true; false].
Proof. rewrite ExperienceSection_connectors; [reflexivity|discriminate]. Defined.

(** C21. The hobby icon slot is never blank: a missing or empty
    [iconUrl] falls back to the palette emoji. *)
Theorem hobby_icon_truthy (hobby : Hobby.t) : truthy (hobby_icon hobby) = true.
Proof. unfold hobby_icon, js_or. destruct (Hobby.iconUrl hobby) as [u|]; [|done]. by case_if. Qed.

(** C22. Every contact button of the About section has a non-empty
    target (the e-mail one a [mailto:] link), and there are at most four. *)
Theorem about_links_targets (profile : Profile.t) :
  Forall (fun l => truthy (snd l) = true) (about_links profile) /\
  length (about_links profile) <= 4.
Proof.
  unfold about_links.
  destruct (Profile.email profile) as [e|], (Profile.linkedinUrl profile) as [li|],
           (Profile.githubUrl profile) as [g|], (Profile.websiteUrl profile) as [w|];
    simpl; repeat case_if; simpl; split; try lia;
    repeat constructor; simpl; assumption.
Qed.

(** A past position with no end date renders a dangling dash: the local
    [formatDate] gives [""] where [utils/helpers.ts]'s gives ["Present"]. *)
Example date_range_open_ended :
  date_range (fun d => d) (Experience.mk 1 "Engineer" "Acme" None (Some "2020-01") None None None None)
  = "2020-01 - ".
Proof. reflexivity. Qed.
