(* ===== verification/Layout.v ===== *)
(** * Layout and the application shell: [components/layout/Header.tsx],
    [components/layout/Footer.tsx], [components/ui/LoadingSpinner.tsx],
    [App.tsx]

    [App] reads the hook's holders and picks one of three views
    (lines 33-47): the spinner while [loading], the full-page error when
    [error] is truthy, otherwise the page with the header, the six
    sections and the footer.  The [Contact] section is imported from a
    file that is not in the repository: the page holds it as an opaque
    marker ([ContactElement]) at its place in [<main>].
    The clock ([new Date().getFullYear()]) is host behaviour: the year is
    a Section variable.  [scrollToSection] is modelled against the set of
    element ids in the document: [document_ids] lists the ids each view
    puts there, with the ids of the absent [Contact] component as a
    parameter.  [app_over_source] proves the shell's behaviour against
    the [PortfolioSource] interface of [Lifecycle.v] alone. *)

From S2P Require Import Prelude Types Api Effect PromiseAll PortfolioHook Lifecycle Skills Projects Sections.
From Stdlib Require Import ZArith.

Local Open Scope string_scope.

(** ** [Header.tsx] *)

(** [{profile?.fullName || 'Portfolio'}] *)
Definition header_name (profile : option Profile.t) : string :=
  js_or (option_map Profile.fullName profile) "Portfolio".

(** Lines 25-32: (section id, label). *)
Definition navigationItems : list (string * string) :=
  [("about", "About"); ("skills", "Skills"); ("experience", "Experience");
   ("projects", "Projects"); ("hobbies", "Hobbies"); ("contact", "Contact")].

(** Lines 18-23: [document.getElementById(sectionId)] and, when an
    element is found, [scrollIntoView].  The result is the id of the
    element scrolled to, [None] when the click does nothing. *)
Definition scrollToSection (dom : list string) (sectionId : string) : option string :=
  if decide (sectionId ∈ dom) then Some sectionId else None.

Record HeaderView := mkHeaderView { brand : string; nav : list (string * string) }.

(** [interface HeaderProps] (lines 4-6). *)
Module HeaderProps.
Record t := mk { profile : option Profile.t }.
End HeaderProps.

Definition Header (props : HeaderProps.t) : HeaderView :=
  let profile := HeaderProps.profile props in
  mkHeaderView (header_name profile) navigationItems.

(** ** [Footer.tsx] *)

Record FooterView := mkFooterView { footer_year : Z; footer_name : string }.

(** [interface FooterProps] (lines 4-6). *)
Module FooterProps.
Record t := mk { profile : option Profile.t }.
End FooterProps.

Definition Footer (currentYear : Z) (props : FooterProps.t) : FooterView :=
  let profile := FooterProps.profile props in
  mkFooterView currentYear (js_or (option_map Profile.fullName profile) "Portfolio").

(** ** [LoadingSpinner.tsx] and [App.tsx] *)

(** The spinner's accessible label (line 17). *)
Definition spinner_label : string := "Loading portfolio content".

(** [<Contact />] (line 59): what the component renders is not known,
    its file being absent from the repository. *)
Inductive ContactView := ContactElement.

Inductive AppView :=
| Spinner (label : string)
| ErrorPage
| Page (header : HeaderView) (about : AboutView) (skills : list (string * list SkillCard))
       (experience : list ExperienceCard) (projects : ProjectsView) (hobbies : list HobbyCard)
       (contact : ContactView) (footer : FooterView).

(** The [id] attribute of each section's root element. *)
Definition about_section_id : string := "about".
Definition skills_section_id : string := "skills".
Definition experience_section_id : string := "experience".
Definition projects_section_id : string := "projects".
Definition hobbies_section_id : string := "hobbies".
Definition contact_section_id : string := "contact".

(** The element ids a view puts into the document: none for the spinner
    and the error page; for the page, the sections in the order of
    [<main>] (App.tsx lines 53-60), each section rendering its root
    element on every branch, and whatever the [Contact] component renders
    ([contact_ids]: its file is not in the repository). *)
Definition document_ids (contact_ids : list string) (v : AppView) : list string :=
  match v with
  | Page _ _ _ _ _ _ _ _ =>
      [about_section_id; skills_section_id; experience_section_id;
       projects_section_id; hobbies_section_id] ++ contact_ids
  | _ => []
  end.

Section AppView.
Variable toLocaleDateString : string -> string.
Variable currentYear : Z.

Definition App (s : HookState) : AppView :=
  if loading s then Spinner spinner_label
  else if truthy (error s) then ErrorPage
  else Page (Header (HeaderProps.mk (profile s))) (About (AboutProps.mk (profile s)))
            (Skills (SkillsProps.mk (skills s)))
            (ExperienceSection toLocaleDateString (ExperienceProps.mk (experiences s)))
            (Projects (ProjectsProps.mk (projects s))) (HobbiesSection (HobbiesProps.mk (hobbies s)))
            ContactElement (Footer currentYear (FooterProps.mk (profile s))).
End AppView.

(** ** End to end *)

(** C23. What the user sees over one page load: the spinner at the
    mount and at every suspension point; then the full-page error exactly
    when some fetch failed in transport or some ok response was
    malformed, and otherwise the page built from the contract's state
    [spec_ready]. *)
Theorem app_lifecycle toLocale year net :
  valid_net net ->
  Forall (fun s => App toLocale year s = Spinner spinner_label)
         (initial_state :: snapshots (usePortfolioData net)) /\
  App toLocale year (react (usePortfolioData net)) =
    if has_network_error net || has_decode_failure net then ErrorPage
    else App toLocale year (spec_ready net).
Proof.
  intros Hv. split.
  - eapply Forall_impl; [apply snapshots_suspended|].
    intros s [Hl _]. unfold App. by rewrite Hl.
  - destruct (final_flags net Hv) as [Hl He].
    destruct (has_network_error net || has_decode_failure net) eqn:Hbad.
    + unfold App. by rewrite Hl, He.
    + apply orb_false_iff in Hbad as [Hnet Hdec]. by rewrite (final_ready net Hv Hnet Hdec).
Qed.

Lemma app_lifecycle_witness :
  App (fun d => d) 2026 (react (usePortfolioData scenarioB)) = ErrorPage.
Proof.
  destruct (app_lifecycle (fun d => d) 2026 scenarioB ltac:(decide_valid)) as [_ ->]. reflexivity.
Defined.

(** C24. Header and footer show the same name, never an empty one: the
    profile's [fullName] when present and non-empty, ["Portfolio"]
    otherwise. *)
Theorem header_footer_name year (profile : option Profile.t) :
  brand (Header (HeaderProps.mk profile)) = footer_name (Footer year (FooterProps.mk profile)) /\
  truthy (brand (Header (HeaderProps.mk profile))) = true.
Proof.
  split; [done|]. unfold Header, header_name, js_or. simpl.
  destruct profile as [p|]; simpl; [|done]. by case_if.
Qed.

(** ** Navigation *)

Lemma navigationItems_ids :
  map fst navigationItems =
    [about_section_id; skills_section_id; experience_section_id;
     projects_section_id; hobbies_section_id; contact_section_id].
Proof. reflexivity. Qed.

Lemma scrollToSection_found dom id : id ∈ dom -> scrollToSection dom id = Some id.
Proof. intros Hin. unfold scrollToSection. by case_decide. Qed.

Lemma scrollToSection_missing dom id : id ∉ dom -> scrollToSection dom id = None.
Proof. intros Hin. unfold scrollToSection. by case_decide. Qed.

(** A menu target is found in the page's document unless it is the
    contact section and [Contact] renders no such element. *)
Lemma nav_item_scroll contact_ids id :
  id ∈ map fst navigationItems ->
  scrollToSection ([about_section_id; skills_section_id; experience_section_id;
     projects_section_id; hobbies_section_id] ++ contact_ids) id =
  if decide (id = contact_section_id /\ contact_section_id ∉ contact_ids) then None else Some id.
Proof.
  intros Hin. rewrite navigationItems_ids in Hin. case_decide as Hc.
  - destruct Hc as [-> Hn]. apply scrollToSection_missing.
    rewrite elem_of_app, !elem_of_cons, elem_of_nil. unfold contact_section_id in *. intuition discriminate.
  - apply scrollToSection_found. rewrite elem_of_app.
    destruct (decide (id = contact_section_id)) as [->|Hne].
    + right. destruct (decide (contact_section_id ∈ contact_ids)); tauto.
    + left. set_solver.
Qed.

(** C29. Navigation safety: on the page, the header's menu keys are
    unique and every menu button scrolls to its section, except the
    [contact] one, which scrolls exactly when the [Contact] component
    renders an element with that id; on any page, a click scrolls to the
    element it names or does nothing. *)
Theorem header_navigation toLocale year contact_ids s :
  loading s = false -> truthy (error s) = false ->
  NoDup (map fst (nav (Header (HeaderProps.mk (profile s))))) /\
  Forall (fun item : string * string =>
    scrollToSection (document_ids contact_ids (App toLocale year s)) item.1 =
      if decide (item.1 = contact_section_id /\ contact_section_id ∉ contact_ids)
      then None else Some item.1)
    (nav (Header (HeaderProps.mk (profile s)))).
Proof.
  intros Hl He. unfold App. rewrite Hl, He. simpl. split.
  - apply (bool_decide_unpack _). vm_compute. reflexivity.
  - apply Forall_forall. intros [id label] Hin. apply nav_item_scroll.
    by apply (list_elem_of_fmap_2 fst) in Hin.
Qed.

(** ** The shell against the source interface *)

Section AppOverSource.
Context `{PortfolioSource Env}.

(** C30. Whatever implements [PortfolioSource]: every render but the last
    shows the spinner; the last render of a well-formed environment is
    not the spinner, and it is the full-page error exactly when the error
    holder carries the fixed failure message. *)
Theorem app_over_source toLocale year e :
  source_ok e ->
  Forall (fun s => App toLocale year s = Spinner spinner_label) (removelast (source_renders e)) /\
  exists s, last (source_renders e) = Some s /\
    App toLocale year s <> Spinner spinner_label /\
    (App toLocale year s = ErrorPage <-> error s = Some FAILED_MESSAGE).
Proof.
  intros Hok. split.
  - eapply Forall_impl; [apply source_suspended|]. intros s [Hl _]. unfold App. by rewrite Hl.
  - destruct (last (source_renders e)) as [s|] eqn:Hlast.
    2:{ apply last_None in Hlast. by apply source_nonempty in Hlast. }
    exists s. split; [done|].
    pose proof (source_terminates e s Hok Hlast) as Hl.
    assert (Hwf : error_wf s).
    { eapply Forall_forall; [apply source_error_wf|]. by apply last_Some_elem_of. }
    unfold App. rewrite Hl. destruct Hwf as [-> | ->]; simpl; split; try done.
Qed.
End AppOverSource.

Lemma header_navigation_witness :
  NoDup (map fst (nav (Header (HeaderProps.mk (profile (upd_loading false initial_state)))))) /\
  Forall (fun item : string * string =>
    scrollToSection (document_ids [] (App (fun d => d) 2026 (upd_loading false initial_state))) item.1 =
      if decide (item.1 = contact_section_id /\ contact_section_id ∉ @nil string)
      then None else Some item.1)
    (nav (Header (HeaderProps.mk (profile (upd_loading false initial_state))))).
Proof. apply header_navigation; reflexivity. Defined.

Lemma app_over_source_witness :
  Forall (fun s => App (fun d => d) 2026 s = Spinner spinner_label)
    (removelast (source_renders (Env := Net) scenarioB)) /\
  exists s, last (source_renders (Env := Net) scenarioB) = Some s /\
    App (fun d => d) 2026 s <> Spinner spinner_label /\
    (App (fun d => d) 2026 s = ErrorPage <-> error s = Some FAILED_MESSAGE).
Proof. apply app_over_source. simpl. decide_valid. Defined.
