(* ===== verification/Page.v ===== *)
(** * The rendered page as a whole

    Properties of what [App.tsx] renders that involve several
    components at once.

    - React keys: every [.map(...)] of the page gives its elements a
      [key] ([Header.tsx] line 45, [Skills.tsx] lines 33 and 38,
      [Experience.tsx] line 31, [Projects.tsx] lines 32, 49 and 92,
      [Hobbies.tsx] line 24), and React requires the keys of siblings to
      be distinct.  [sibling_keys] lists, for a view, the keys of each
      group of siblings; [page_keys_unique] shows that they are distinct
      as soon as the identities of each resource are.
    - From the network to the page: the reference fold of the hook only
      stores served bodies, so [hook_page_keys_unique] carries the key
      discipline to the page shown after any cycle. *)

From S2P Require Import Prelude Types Api Effect PromiseAll PortfolioHook Lifecycle JsString Skills Projects Sections Layout.
From Stdlib Require Import ZArith QArith.

Local Open Scope nat_scope.

(** A React key: the code uses strings (section ids, categories) and
    numbers (identities, indices). *)
Inductive ReactKey := KeyString (s : string) | KeyNumber (n : Z).

#[export] Instance ReactKey_eq_dec : EqDecision ReactKey.
Proof. solve_decision. Defined.

(** [key={item.id}] *)
Definition nav_keys (h : HeaderView) : list ReactKey := map (fun item => KeyString item.1) (nav h).

(** [key={category}] *)
Definition category_keys (blocks : list (string * list SkillCard)) : list ReactKey :=
  map (fun b => KeyString b.1) blocks.

(** [key={skill.id}] *)
Definition skill_keys (cards : list SkillCard) : list ReactKey :=
  map (fun c => KeyNumber (card_key c)) cards.

(** [key={exp.id}] *)
Definition experience_keys (cards : list ExperienceCard) : list ReactKey :=
  map (fun c => KeyNumber (ec_key c)) cards.

(** [key={project.id}] *)
Definition project_keys (cards : list ProjectCard) : list ReactKey :=
  map (fun c => KeyNumber (pc_key c)) cards.

(** [key={idx}]: the index of the tag in the split. *)
Definition tag_keys (card : ProjectCard) : list ReactKey :=
  map (fun idx => KeyNumber (Z.of_nat idx)) (seq 0 (length (pc_tags card))).

(** [key={hobby.id}] *)
Definition hobby_keys (cards : list HobbyCard) : list ReactKey :=
  map (fun c => KeyNumber (hc_key c)) cards.

(** The key lists of the sibling groups of a view, in page order. *)
Definition sibling_keys (v : AppView) : list (list ReactKey) :=
  match v with
  | Page h _ sk ex pr hb _ _ =>
      [nav_keys h; category_keys sk] ++ map (fun b => skill_keys b.2) sk ++
      [experience_keys ex] ++
      List.concat (map (fun cards => project_keys cards :: map tag_keys cards)
                       (option_list (featured_block pr))) ++
      map project_keys (option_list (other_block pr)) ++ [hobby_keys hb]
  | _ => []
  end.

(** ** Keys, component by component *)

Lemma KeyNumber_inj x y : KeyNumber x = KeyNumber y -> x = y.
Proof. by intros [=]. Qed.

Lemma KeyString_inj x y : KeyString x = KeyString y -> x = y.
Proof. by intros [=]. Qed.

#[local] Hint Resolve KeyNumber_inj KeyString_inj : portfolio.

(** A key list built from identities is duplicate free when they are. *)
Lemma keys_NoDup {A} (k : A -> Z) (l : list A) :
  NoDup (map k l) -> NoDup (map (fun x => KeyNumber (k x)) l).
Proof. intros Hnd. rewrite <- (map_map k KeyNumber). apply NoDup_map_inj; auto with portfolio. Qed.

Lemma nav_keys_NoDup p : NoDup (nav_keys (Header (HeaderProps.mk p))).
Proof. apply (bool_decide_unpack _). vm_compute. reflexivity. Qed.

Lemma Skills_keys_NoDup skills :
  ids_unique Skill.id skills ->
  NoDup (category_keys (Skills (SkillsProps.mk skills))) /\
  Forall (fun b => NoDup (skill_keys b.2)) (Skills (SkillsProps.mk skills)).
Proof.
  intros Hids. split.
  - unfold category_keys. rewrite <- (map_map fst KeyString), Skills_heads.
    apply NoDup_map_inj; [auto with portfolio|apply js_Set_from_NoDup].
  - eapply Forall_impl; [by apply Skills_card_keys|]. intros b Hb. by apply keys_NoDup.
Qed.

Lemma experience_keys_NoDup toLocale exps :
  ids_unique Experience.id exps ->
  NoDup (experience_keys (ExperienceSection toLocale (ExperienceProps.mk exps))).
Proof.
  intros Hids. apply keys_NoDup. rewrite ExperienceSection_props, map_imap. simpl. by rewrite imap_ignore.
Qed.

Lemma hobby_keys_NoDup hobbies :
  ids_unique Hobby.id hobbies -> NoDup (hobby_keys (HobbiesSection (HobbiesProps.mk hobbies))).
Proof. intros Hids. apply keys_NoDup. rewrite HobbiesSection_props. by rewrite map_map. Qed.

Lemma tag_keys_NoDup card : NoDup (tag_keys card).
Proof.
  apply NoDup_map_inj; [|apply NoDup_seq]. intros x y Hxy. apply KeyNumber_inj in Hxy. lia.
Qed.

Lemma project_cards_keys_NoDup (card : Project.t -> ProjectCard) (f : Project.t -> bool) projects :
  (forall p, pc_key (card p) = Project.id p) ->
  ids_unique Project.id projects ->
  NoDup (project_keys (map card (List.filter f projects))).
Proof.
  intros Hkey Hids. apply keys_NoDup. rewrite map_map, (map_ext _ _ Hkey).
  by apply NoDup_map_filter.
Qed.

Lemma Projects_keys_NoDup projects :
  ids_unique Project.id projects ->
  Forall NoDup (List.concat (map (fun cards => project_keys cards :: map tag_keys cards)
                                 (option_list (featured_block (Projects (ProjectsProps.mk projects))))) ++
                map project_keys (option_list (other_block (Projects (ProjectsProps.mk projects))))).
Proof.
  intros Hids. unfold Projects. simpl. apply Forall_app. split.
  - case_if; simpl; [|constructor]. rewrite app_nil_r. constructor.
    + by apply project_cards_keys_NoDup.
    + apply Forall_forall. intros keys Hin. apply list_elem_of_In, in_map_iff in Hin as (c & <- & _).
      apply tag_keys_NoDup.
  - case_if; simpl; constructor; [|constructor]. by apply project_cards_keys_NoDup.
Qed.

(** ** The whole page *)

(** The keys of the page built from a state. *)
Lemma page_keys_NoDup toLocale year (s : HookState) :
  ids_unique Skill.id (skills s) -> ids_unique Project.id (projects s) ->
  ids_unique Experience.id (experiences s) -> ids_unique Hobby.id (hobbies s) ->
  Forall NoDup (sibling_keys (App toLocale year s)).
Proof.
  intros Hsk Hpr Hex Hhb. unfold App. case_if; [constructor|]. case_if; [constructor|].
  cbn [sibling_keys]. destruct (Skills_keys_NoDup _ Hsk) as [Hcat Hcards].
  pose proof (Projects_keys_NoDup _ Hpr) as Hproj. apply Forall_app in Hproj as [Hf Ho].
  rewrite !Forall_app, !Forall_cons.
  split_and!; first [done | apply nav_keys_NoDup | by apply List.Forall_map
                    | by apply experience_keys_NoDup | by apply hobby_keys_NoDup].
Qed.

(** C34. React's key discipline over the whole page: when the
    identities of the skills, projects, experiences and hobbies are each
    duplicate free, every group of sibling elements the page renders has
    distinct keys (the menu, the category blocks, the skill cards of each
    block, the timeline, both project grids, the tags of each featured
    card, the hobby cards); the spinner and the error page render no
    keyed list. *)
Theorem page_keys_unique toLocale year (s : HookState) :
  ids_unique Skill.id (skills s) -> ids_unique Project.id (projects s) ->
  ids_unique Experience.id (experiences s) -> ids_unique Hobby.id (hobbies s) ->
  Forall NoDup (sibling_keys (App toLocale year s)).
Proof. apply page_keys_NoDup. Qed.


(** ** From the network to the page *)

(** Every body the backend serves for a resource satisfies [P]. *)
Definition served_body {A} (f : FetchResult A) (P : A -> Prop) : Prop :=
  forall r d, f = Completed r -> body r = Some d -> P d.

(** The backend's collections each have distinct identities. *)
Definition served_ids_unique (net : Net) : Prop :=
  served_body (skillsRes net) (ids_unique Skill.id) /\
  served_body (projectsRes net) (ids_unique Project.id) /\
  served_body (experiencesRes net) (ids_unique Experience.id) /\
  served_body (hobbiesRes net) (ids_unique Hobby.id).

Definition holders_ids_unique (s : HookState) : Prop :=
  ids_unique Skill.id (skills s) /\ ids_unique Project.id (projects s) /\
  ids_unique Experience.id (experiences s) /\ ids_unique Hobby.id (hobbies s).

Lemma holders_ids_unique_empty s :
  skills s = [] -> projects s = [] -> experiences s = [] -> hobbies s = [] ->
  holders_ids_unique s.
Proof. unfold holders_ids_unique. intros -> -> -> ->. split_and!; constructor. Qed.

(** The reference fold only stores served bodies, so its holders keep
    distinct identities. *)
Lemma reference_final_ids net : served_ids_unique net -> holders_ids_unique (reference_final net).
Proof.
  intros (Hsk & Hpr & Hex & Hhb). unfold reference_final. case_if; [by apply holders_ids_unique_empty|].
  match goal with |- context [let '(_, _) := ?acc in _] =>
    assert (Hacc : holders_ids_unique acc.1); [|destruct acc as [s []]; apply Hacc] end.
  repeat (apply ref_accept_inv;
    [|intros r d s Hr Hd (? & ? & ? & ?); split_and!; simpl; eauto]).
  by apply holders_ids_unique_empty.
Qed.

(** C37. Hook and view together: on a well-formed network whose
    collections each have distinct identities, the page shown at the end
    of the cycle has distinct keys in every group of siblings, whatever
    the completion order and whatever failed (a failed resource keeps its
    empty default). *)
Theorem hook_page_keys_unique toLocale year net :
  valid_net net -> served_ids_unique net ->
  Forall NoDup (sibling_keys (App toLocale year (react (usePortfolioData net)))).
Proof.
  intros Hv Hs. rewrite final_reference by done.
  destruct (reference_final_ids net Hs) as (? & ? & ? & ?). by apply page_keys_NoDup.
Qed.

Lemma page_keys_unique_witness :
  Forall NoDup (sibling_keys (App (fun d => d) 2026 (react (usePortfolioData scenarioA)))).
Proof.
  apply page_keys_unique; unfold ids_unique; apply (bool_decide_unpack _); vm_compute; reflexivity.
Defined.

Lemma hook_page_keys_unique_witness :
  Forall NoDup (sibling_keys (App (fun d => d) 2026 (react (usePortfolioData scenarioD)))).
Proof.
  apply hook_page_keys_unique; [decide_valid|].
  split_and!; intros r d Hr Hd; simpl in Hr; injection Hr as <-; simpl in Hd; try discriminate;
    injection Hd as <-;
    unfold ids_unique; apply (bool_decide_unpack _); vm_compute; reflexivity.
Defined.
